(** * Verification of the YouTube metadata ingestion pipeline

  A shallow embedding of the scraping scripts
  ([YouTubeMetadataExtractor.py], [vdata.py], [test/vdata_old.py],
  [deduplication.py]) together with the properties their specification
  states about them.

  Conventions of the embedding:
  - a Python [str] is a [string], the bytes of its UTF-8 encoding; the
    regular expressions of the source are written out as the matching
    functions they denote;
  - a Python [int] is a [Z];
  - a Python [set] of identifiers is a [gset string];
  - [exit(1)] and uncaught exceptions are explicit results ([outcome]);
  - the remote API is an oracle indexed by the number of calls made so
    far, so that a run is a pure function of the answers of the server;
  - pandas, which is no code of the repository, is a parameter: the frame
    it makes of a file, with the cells typed as it infers them, and the
    text it writes for a value. *)

From Stdlib Require Import ZArith Ascii DecimalString DecimalNat.
From stdpp Require Import gmap strings list.

Local Open Scope Z_scope.

(** ** Python string primitives *)

Module Py.

Definition is_digit (c : ascii) : bool :=
  let n := nat_of_ascii c in (48 <=? n)%nat && (n <=? 57)%nat.

Definition is_lower (c : ascii) : bool :=
  let n := nat_of_ascii c in (97 <=? n)%nat && (n <=? 122)%nat.

Definition is_upper (c : ascii) : bool :=
  let n := nat_of_ascii c in (65 <=? n)%nat && (n <=? 90)%nat.

(** The class [[a-zA-Z0-9_-]]. *)
Definition is_id_char (c : ascii) : bool :=
  is_lower c || is_upper c || is_digit c
  || Ascii.eqb c "_" || Ascii.eqb c "-".

(** A negated one-character class such as [[^&]] or [[^/]]. *)
Definition is_not (x : ascii) (c : ascii) : bool := negb (Ascii.eqb c x).

(** [s.startswith(p)] *)
Fixpoint startswith (p s : string) : bool :=
  match p, s with
  | EmptyString, _ => true
  | String a p', String b s' => Ascii.eqb a b && startswith p' s'
  | String _ _, EmptyString => false
  end.

(** [s[len(p):]] when [s.startswith(p)]. *)
Fixpoint strip_prefix (p s : string) : option string :=
  match p, s with
  | EmptyString, _ => Some s
  | String a p', String b s' =>
      if Ascii.eqb a b then strip_prefix p' s' else None
  | String _ _, EmptyString => None
  end.

(** [sub in s] *)
Fixpoint contains (sub s : string) : bool :=
  startswith sub s ||
  match s with
  | EmptyString => false
  | String _ s' => contains sub s'
  end.

(** The longest prefix of [s] whose characters are all in the class,
    and what follows it: a greedy [[class]*]. *)
Fixpoint span (cls : ascii -> bool) (s : string) : string * string :=
  match s with
  | EmptyString => (EmptyString, EmptyString)
  | String c s' =>
      if cls c
      then let '(run, rest) := span cls s' in (String c run, rest)
      else (EmptyString, s)
  end.

(** [s.split(sep)] for a non-empty separator: cut at the non-overlapping
    occurrences of [sep], scanning from the left. [skip] counts the
    characters of a separator still to be dropped and [cur] holds the
    current piece, last character first. *)
Fixpoint rev_string (acc s : string) : string :=
  match s with
  | EmptyString => acc
  | String c s' => rev_string (String c acc) s'
  end.

Fixpoint split_aux (sep : string) (skip : nat) (cur s : string)
  : list string :=
  match s with
  | EmptyString => [rev_string EmptyString cur]
  | String c s' =>
      match skip with
      | S k => split_aux sep k cur s'
      | O =>
          if startswith sep s
          then rev_string EmptyString cur
                 :: split_aux sep (String.length sep - 1) EmptyString s'
          else split_aux sep O (String c cur) s'
      end
  end.

Definition split (sep s : string) : list string :=
  split_aux sep O EmptyString s.

(** [l[-1]], [l[0]] and [l[1]] on a list; [None] stands for the
    [IndexError] of Python. *)
Definition last_item (l : list string) : option string := last l.
Definition item (i : nat) (l : list string) : option string := l !! i.

(** *** Decimal digits

    A [str] is held as its UTF-8 encoding. On a [str], the class [\d] of
    a pattern and [int()] take the decimal digits of every script: the
    characters of category Nd, which come in runs of ten, from the digit
    zero to the digit nine. *)

Definition code (c : ascii) : N := N_of_ascii c.

Definition continuation (b : N) : bool := ((128 <=? b) && (b <? 192))%N.

(** The first character of a string: its code point and the number of
    bytes that hold it; [None] for the empty string and for bytes that
    are no UTF-8. *)
Definition decode (s : string) : option (N * nat) :=
  match s with
  | String c0 s1 =>
      let b0 := code c0 in
      if (b0 <? 128)%N then Some (b0, 1%nat)
      else
        match s1 with
        | String c1 s2 =>
            let b1 := code c1 in
            if negb (continuation b1) then None
            else if ((194 <=? b0) && (b0 <? 224))%N
            then Some (((b0 - 192) * 64 + (b1 - 128))%N, 2%nat)
            else
              match s2 with
              | String c2 s3 =>
                  let b2 := code c2 in
                  if negb (continuation b2) then None
                  else if ((224 <=? b0) && (b0 <? 240))%N
                  then
                    let cp := ((b0 - 224) * 4096 + (b1 - 128) * 64
                               + (b2 - 128))%N in
                    if ((2048 <=? cp)
                        && negb ((55296 <=? cp) && (cp <? 57344)))%N
                    then Some (cp, 3%nat) else None
                  else
                    match s3 with
                    | String c3 _ =>
                        let b3 := code c3 in
                        if negb (continuation b3) then None
                        else if ((240 <=? b0) && (b0 <? 245))%N
                        then
                          let cp := ((b0 - 240) * 262144 + (b1 - 128) * 4096
                                     + (b2 - 128) * 64 + (b3 - 128))%N in
                          if ((65536 <=? cp) && (cp <? 1114112))%N
                          then Some (cp, 4%nat) else None
                        else None
                    | EmptyString => None
                    end
              | EmptyString => None
              end
        | EmptyString => None
        end
  | EmptyString => None
  end.

(** The code points of the digits zero (Unicode 14.0, the version of
    CPython 3.11). *)
Definition decimal_zeros : list N :=
  [48; 1632; 1776; 1984; 2406; 2534; 2662; 2790; 2918; 3046; 3174; 3302;
   3430; 3558; 3664; 3792; 3872; 4160; 4240; 6112; 6160; 6470; 6608; 6784;
   6800; 6992; 7088; 7232; 7248; 42528; 43216; 43264; 43472; 43504; 43600;
   44016; 65296; 66720; 68912; 69734; 69872; 69942; 70096; 70384; 70736;
   70864; 71248; 71360; 71472; 71904; 72016; 72784; 73040; 73120; 92768;
   92864; 93008; 120782; 120792; 120802; 120812; 120822; 123200; 123632;
   125264; 130032]%N.

(** The value of a decimal digit, [None] for another character. *)
Definition decimal (cp : N) : option Z :=
  (fun zero => Z.of_N (cp - zero))
    <$> List.find (fun zero => ((zero <=? cp) && (cp <? zero + 10))%N)
          decimal_zeros.

(** The decimal digit at the start of a string: the number of bytes that
    hold it, and its value. *)
Definition digit (s : string) : option (nat * Z) :=
  match decode s with
  | Some (cp, n) =>
      match decimal cp with
      | Some v => Some (n, v)
      | None => None
      end
  | None => None
  end.

(** A greedy [\d*] at the start of [s]: the values of the digits matched
    and what follows them. [skip] counts the bytes of a digit still to be
    passed. *)
Fixpoint digits_aux (skip : nat) (s : string) : list Z * string :=
  match s with
  | EmptyString => ([], EmptyString)
  | String _ s' =>
      match skip with
      | S k => digits_aux k s'
      | O =>
          match digit s with
          | Some (n, v) =>
              let '(vs, rest) := digits_aux (n - 1) s' in (v :: vs, rest)
          | None => ([], s)
          end
      end
  end.

Definition digits (s : string) : list Z * string := digits_aux 0 s.

(** [sys.get_int_max_str_digits()], as CPython sets it. *)
Definition max_str_digits : nat := 4300.

(** [int(ds)] for [ds] a non-empty run of decimal digits, given by the
    values of the digits; [None] is the [ValueError] of a run of more
    digits than the limit. *)
Fixpoint int_acc (acc : Z) (ds : list Z) : Z :=
  match ds with
  | [] => acc
  | d :: ds' => int_acc (10 * acc + d) ds'
  end.

Definition int (ds : list Z) : option Z :=
  if (max_str_digits <? length ds)%nat then None else Some (int_acc 0 ds).

(** The match of [lit([class]+)] anchored at the start of [s]: the
    captured group. *)
Definition match_lit_class (lit : string) (cls : ascii -> bool)
    (s : string) : option string :=
  match strip_prefix lit s with
  | Some rest =>
      match span cls rest with
      | (String c run, _) => Some (String c run)
      | (EmptyString, _) => None
      end
  | None => None
  end.

(** The alternatives of [(?:lit1|lit2|...)([class]+)] tried in order at
    one position. *)
Fixpoint match_alts (lits : list string) (cls : ascii -> bool)
    (s : string) : option string :=
  match lits with
  | [] => None
  | lit :: lits' =>
      match match_lit_class lit cls s with
      | Some g => Some g
      | None => match_alts lits' cls s
      end
  end.

(** [re.search(r'(?:lit1|...)([class]+)', s)]: group 1 of the leftmost
    match, [None] when there is no match. *)
Fixpoint re_search (lits : list string) (cls : ascii -> bool)
    (s : string) : option string :=
  match match_alts lits cls s with
  | Some g => Some g
  | None =>
      match s with
      | EmptyString => None
      | String _ s' => re_search lits cls s'
      end
  end.

(** [s.endswith(suffix)] *)
Definition endswith (suffix s : string) : bool :=
  let n := String.length s in
  let m := String.length suffix in
  (m <=? n)%nat && String.eqb (String.substring (n - m) m s) suffix.

(** [range(0, n, step)] *)
Definition range_step (n step : nat) : list nat :=
  (fun k => k * step)%nat <$> seq 0 ((n + step - 1) / step)%nat.

(** [l[i:j]] for [0 <= i <= j]. *)
Definition slice {A : Type} (l : list A) (i j : nat) : list A :=
  take (j - i) (drop i l).

(** [sep.join(l)] *)
Fixpoint join (sep : string) (l : list string) : string :=
  match l with
  | [] => EmptyString
  | [x] => x
  | x :: l' => x +:+ sep +:+ join sep l'
  end.

End Py.

(** ** Results of effectful code *)

(** What a call does: return a value, terminate the process ([exit(1)]),
  or let an exception escape. *)
Inductive outcome (A : Type) : Type :=
| Done (a : A)
| Exit
| Raise.
Arguments Done {A} a.
Arguments Exit {A}.
Arguments Raise {A}.

(** ** Tabular storage *)

Module Pandas.

(** A CSV file on disk: its header line and the cells of its data
    lines. *)
Record csv := {
  header : list string;
  lines : list (list string)
}.

(** A [DataFrame]: its columns and its rows, each row with its index
    label. [V] is the type of the values that the cells hold (strings,
    numbers, the missing value), two values being equal when
    [drop_duplicates] takes them for the same. *)
Record DataFrame (V : Type) := {
  columns : list string;
  rows : list (nat * list V)
}.
Arguments columns {V} _.
Arguments rows {V} _.

(** pandas is no code of the repository; what the scripts take from it
    is taken as it is:
    - [read_csv file] is the frame that [pd.read_csv] makes of a file,
      the cells typed as pandas infers them, and [None] when it raises;
    - [str_of v] is the string that a value is, [None] for a value that
      is no string;
    - [text_of v] is the text that [to_csv] writes for a value. *)
Record library (V : Type) := {
  read_csv : csv -> option (DataFrame V);
  str_of : V -> option string;
  text_of : V -> string
}.
Arguments read_csv {V} _ _.
Arguments str_of {V} _ _.
Arguments text_of {V} _ _.

(** [df.to_csv(file, index=False)] *)
Definition to_csv {V : Type} (pd : library V) (df : DataFrame V) : csv :=
  {| header := columns df;
     lines := (fun r : nat * list V => text_of pd <$> snd r) <$> rows df |}.

(** The position of a column, [None] when [name not in df.columns]. *)
Definition column_position (name : string) (cols : list string)
  : option nat :=
  fst <$> list_find (fun c => c = name) cols.

(** The cell of a row in the column at position [k]. *)
Definition cell {V : Type} (k : nat) (row : list V) : option V := row !! k.

(** [df[name].tolist()]; [None] is the [KeyError] of a missing column. *)
Definition column_values {V : Type} (name : string) (df : DataFrame V)
  : option (list (option V)) :=
  match column_position name (columns df) with
  | None => None
  | Some k => Some ((fun r : nat * list V => cell k (snd r)) <$> rows df)
  end.

(** Keep the first element of each key, in order; [seen] holds the keys
    met so far. *)
Fixpoint keep_first {A K : Type} `{EqDecision K} (key : A -> K)
    (seen : list K) (l : list A) : list A :=
  match l with
  | [] => []
  | x :: l' =>
      if bool_decide (key x ∈ seen)
      then keep_first key seen l'
      else x :: keep_first key (key x :: seen) l'
  end.

(** [df.drop_duplicates(subset=[name], keep='first')]; [None] is the
    [KeyError] of a missing column. The rows kept keep their labels. *)
Definition drop_duplicates {V : Type} `{EqDecision V} (name : string)
    (df : DataFrame V) : option (DataFrame V) :=
  match column_position name (columns df) with
  | None => None
  | Some k =>
      Some {| columns := columns df;
              rows := keep_first (fun r : nat * list V => cell k (snd r)) []
                        (rows df) |}
  end.

(** [df.reset_index(drop=True)] *)
Definition reset_index {V : Type} (df : DataFrame V) : DataFrame V :=
  {| columns := columns df;
     rows := zip (seq 0 (length (rows df))) (snd <$> rows df) |}.

End Pandas.

(** ** The remote API *)

Module Api.

(** A response of [playlistItems().list]: the video identifiers of its
    items, in the order the server sent them, and the continuation
    token. *)
Record page := {
  items : list string;
  nextPageToken : option string
}.

(** An item of a [videos().list] response, with the parts the scripts
    ask for. The fields that are optional in a resource are options. *)
Record video_item := {
  id : string;
  title : string;
  channelId : string;
  channelTitle : string;
  description : option string;
  categoryId : option string;
  topicCategories : option (list string);
  duration : string;
  publishedAt : string;
  defaultAudioLanguage : option string;
  viewCount : option string;
  tags : option (list string)
}.

End Api.

(** ** [YouTubeMetadataExtractor.py] *)

Module YouTubeMetadataExtractor.

(** One optional component [(?:(\d+)X)?] of the duration pattern: the
    captured digits, by their values, if the component is there, and the
    rest of the input. *)
Definition component (unit : ascii) (s : string)
  : option (list Z) * string :=
  match Py.digits s with
  | (d :: ds, String c rest) =>
      if Ascii.eqb c unit then (Some (d :: ds), rest) else (None, s)
  | _ => (None, s)
  end.

(** [re.match(r'PT(?:(\d+)H)?(?:(\d+)M)?(?:(\d+)S)?', duration)]: the
    three groups, and the unmatched remainder of the input. *)
Definition match_duration (duration : string)
  : option (option (list Z) * option (list Z) * option (list Z) * string) :=
  match Py.strip_prefix "PT" duration with
  | None => None
  | Some s0 =>
      let '(h, s1) := component "H" s0 in
      let '(m, s2) := component "M" s1 in
      let '(s, s3) := component "S" s2 in
      Some (h, m, s, s3)
  end.

(** The pattern goes on at [text] with a component of one of the units:
    a run of digits and the letter of the unit. *)
Definition goes_on (units : list ascii) (text : string) : bool :=
  match Py.digits text with
  | (_ :: _, String c _) => bool_decide (c ∈ units)
  | _ => false
  end.

(** [int(match.group(i)) if match.group(i) else 0]; [Raise] is the
    [ValueError] of [int]. *)
Definition group_value (g : option (list Z)) : outcome Z :=
  match g with
  | Some (d :: ds) =>
      match Py.int (d :: ds) with
      | Some n => Done n
      | None => Raise
      end
  | _ => Done 0
  end.

(** [parse_duration(self, duration)]; [None] is Python's [None]. The
    method catches nothing, so the [ValueError] of [int] escapes. *)
Definition parse_duration (duration : option string) : outcome Z :=
  match duration with
  | None | Some EmptyString => Done 0
  | Some d =>
      match match_duration d with
      | None => Done 0
      | Some (h, m, s, _) =>
          match group_value h with
          | Done hours =>
              match group_value m with
              | Done minutes =>
                  match group_value s with
                  | Done seconds =>
                      Done (hours * 3600 + minutes * 60 + seconds)
                  | Exit => Exit
                  | Raise => Raise
                  end
              | Exit => Exit
              | Raise => Raise
              end
          | Exit => Exit
          | Raise => Raise
          end
      end
  end.

(** *** Credential pool *)

(** The part of [self] that the modelled methods read and write: the
    pool of credentials and the cursor into it. *)
Record extractor := {
  api_keys : list string;
  current_key_index : nat
}.

(** [__init__]: the cursor starts at the first credential. *)
Definition init (keys : list string) : extractor :=
  {| api_keys := keys; current_key_index := 0 |}.

(** [switch_api_key(self)]. The remainder by an empty pool is Python's
    [ZeroDivisionError]. *)
Definition switch_api_key (self : extractor) : outcome extractor :=
  match length (api_keys self) with
  | O => Raise
  | S _ as n =>
      let idx := ((current_key_index self + 1) mod n)%nat in
      if (idx =? 0)%nat then Exit
      else Done {| api_keys := api_keys self; current_key_index := idx |}
  end.

(** *** URL classification *)

(** The dictionaries [{'type': 'video', 'video_id': ...}] and the like. *)
Inductive url_info :=
  | Video (video_id : string)
  | Playlist (playlist_id : string)
  | Channel (channel_id : string).

(** [parse_video_url(self, url)]; the pattern [[?&]v=([a-zA-Z0-9_-]+)]
    is the alternation of [\?v=] and [&v=] before the group. *)
Definition parse_video_url (url : string) : option url_info :=
  if Py.contains "youtu.be" url
  then Video <$> Py.last_item (Py.split "/" url)
  else Video <$> Py.re_search ["?v="; "&v="] Py.is_id_char url.

(** [parse_playlist_url(self, url)] *)
Definition parse_playlist_url (url : string) : option url_info :=
  Playlist <$> Py.re_search ["list="] Py.is_id_char url.

(** [parse_channel_url(self, url)] *)
Definition parse_channel_url (url : string) : option url_info :=
  if Py.contains "/channel/" url
  then Channel <$> Py.last_item (Py.split "/channel/" url)
  else if Py.contains "/@" url
  then Channel <$> Py.last_item (Py.split "/@" url)
  else None.

(** [parse_url(self, url)] *)
Definition parse_url (url : string) : option url_info :=
  if Py.contains "youtube.com/watch" url || Py.contains "youtu.be" url
  then parse_video_url url
  else if Py.contains "youtube.com/playlist" url
  then parse_playlist_url url
  else if Py.contains "youtube.com/channel" url || Py.contains "@" url
  then parse_channel_url url
  else None.

(** *** The API session *)

Import Api.

(** What [request.execute()] does: a response, or an [HttpError] with
    its status and body. *)
Inductive http_result (A : Type) : Type :=
  | Ok (response : A)
  | HttpError (status : Z) (content : string).
Arguments Ok {A} response.
Arguments HttpError {A} status content.

(** The server, as the answers it gives to the call number [n] of the
    run: a page of a playlist, the uploads playlist of a channel
    ([None] when the response has no items), the details of a batch of
    videos. *)
Record server := {
  playlistItems_list :
    nat -> string -> option string -> http_result page;
  channels_list : nat -> string -> http_result (option string);
  videos_list : nat -> list string -> http_result (list video_item)
}.

(** The state of a run: the pool, the number of API calls made so far,
    and the identifiers of every detail request sent, oldest first. *)
Record session := {
  self_ : extractor;
  calls : nat;
  requested : list (list string)
}.

Definition start (keys : list string) : session :=
  {| self_ := init keys; calls := 0; requested := [] |}.

(** One more call made. *)
Definition tick (s : session) : session :=
  {| self_ := self_ s; calls := S (calls s); requested := requested s |}.

Definition with_self (self' : extractor) (s : session) : session :=
  {| self_ := self'; calls := calls s; requested := requested s |}.

(** One more detail request sent. *)
Definition request_videos (video_ids : list string) (s : session)
  : session :=
  {| self_ := self_ s; calls := S (calls s);
     requested := requested s ++ [video_ids] |}.

(** [e.resp.status == 403 and 'quotaExceeded' in e.content.decode('utf-8')] *)
Definition quota_exceeded (status : Z) (content : string) : bool :=
  (status =? 403) && Py.contains "quotaExceeded" content.

(** [not next_page_token]: [None] and the empty string are falsy. *)
Definition falsy (token : option string) : bool :=
  match token with
  | None | Some EmptyString => true
  | Some _ => false
  end.

(** *** Playlist and channel traversal *)

(** The [while True] loop of [fetch_videos_from_playlist], one iteration
    per unit of fuel; [None] when the fuel runs out. *)
Fixpoint fetch_loop (fuel : nat) (srv : server) (playlist_id : string)
    (s : session) (video_ids : list string)
    (next_page_token : option string) (retries : nat)
  : option (outcome (list string) * session) :=
  match fuel with
  | O => None
  | S fuel' =>
      match playlistItems_list srv (calls s) playlist_id next_page_token with
      | Ok response =>
          let video_ids' := video_ids ++ items response in
          if falsy (nextPageToken response)
          then Some (Done video_ids', tick s)
          else fetch_loop fuel' srv playlist_id (tick s) video_ids'
                 (nextPageToken response) retries
      | HttpError status content =>
          if quota_exceeded status content
          then
            match switch_api_key (self_ s) with
            | Done self' =>
                let retries' := S retries in
                if (length (api_keys self') <? retries')%nat
                then Some (Exit, with_self self' (tick s))
                else fetch_loop fuel' srv playlist_id
                       (with_self self' (tick s)) video_ids
                       next_page_token retries'
            | Exit => Some (Exit, tick s)
            | Raise => Some (Raise, tick s)
            end
          else Some (Done video_ids, tick s)
      end
  end.

(** [fetch_videos_from_playlist(self, playlist_id)] *)
Definition fetch_videos_from_playlist (fuel : nat) (srv : server)
    (s : session) (playlist_id : string)
  : option (outcome (list string) * session) :=
  fetch_loop fuel srv playlist_id s [] None 0.

(** [fetch_videos_from_channel(self, channel_id)]; each call of the
    method on itself takes one unit of fuel. *)
Fixpoint fetch_videos_from_channel (fuel : nat) (srv : server)
    (s : session) (channel_id : string)
  : option (outcome (list string) * session) :=
  match fuel with
  | O => None
  | S fuel' =>
      match channels_list srv (calls s) channel_id with
      | Ok (Some uploads_playlist_id) =>
          fetch_videos_from_playlist fuel' srv (tick s) uploads_playlist_id
      | Ok None => Some (Done [], tick s)
      | HttpError status content =>
          if quota_exceeded status content
          then
            match switch_api_key (self_ s) with
            | Done self' =>
                fetch_videos_from_channel fuel' srv
                  (with_self self' (tick s)) channel_id
            | Exit => Some (Exit, tick s)
            | Raise => Some (Raise, tick s)
            end
          else Some (Done [], tick s)
      end
  end.

(** *** Detail fetch *)

(** [item['statistics'].get('viewCount', 0)] is a string of the
    response or the integer [0]. *)
Inductive views :=
  | ViewsStr (s : string)
  | ViewsInt (n : Z).

(** The dictionary built for one item of the response. *)
Record metadata := {
  Video_ID : string;
  Title : string;
  Channel_ID : string;
  Author : string;
  Description : string;
  Category : string;
  Topics : list string;
  Length_Seconds : Z;
  Published : string;
  Audio_Language : string;
  Views : views;
  Tags : list string
}.

Definition metadata_of_item (item : video_item) : outcome metadata :=
  match parse_duration (Some (duration item)) with
  | Done seconds =>
      Done {| Video_ID := id item;
              Title := title item;
              Channel_ID := channelId item;
              Author := channelTitle item;
              Description := default EmptyString (description item);
              Category := default EmptyString (categoryId item);
              Topics := default [] (topicCategories item);
              Length_Seconds := seconds;
              Published := publishedAt item;
              Audio_Language :=
                default EmptyString (defaultAudioLanguage item);
              Views := from_option ViewsStr (ViewsInt 0) (viewCount item);
              Tags := default [] (tags item) |}
  | Exit => Exit
  | Raise => Raise
  end.

(** The loop over the items of a response, filling [metadata_list]. *)
Fixpoint metadata_of_items (items_ : list video_item)
  : outcome (list metadata) :=
  match items_ with
  | [] => Done []
  | item :: items' =>
      match metadata_of_item item with
      | Done m =>
          match metadata_of_items items' with
          | Done metadata_list => Done (m :: metadata_list)
          | Exit => Exit
          | Raise => Raise
          end
      | Exit => Exit
      | Raise => Raise
      end
  end.

(** [fetch_video_metadata_batch(self, video_ids)]; only an [HttpError]
    is caught. *)
Definition fetch_video_metadata_batch (srv : server) (s : session)
    (video_ids : list string) : outcome (list metadata) * session :=
  let s1 := request_videos video_ids s in
  match videos_list srv (calls s) video_ids with
  | Ok response => (metadata_of_items response, s1)
  | HttpError status content =>
      if quota_exceeded status content
      then
        match switch_api_key (self_ s) with
        | Done self' => (Done [], with_self self' s1)
        | Exit => (Exit, s1)
        | Raise => (Raise, s1)
        end
      else (Done [], s1)
  end.

(** *** Persisted storage *)

Import Pandas.

(** [get_existing_video_ids(self)]; the metadata file is [None] when
    [os.path.exists] is false, and [Raise] is what [read_csv] raises and
    the [KeyError] of a file without the column. The set is held by the
    strings in it: the candidates looked up in it are strings, and a
    value that is no string is equal to none of them. *)
Definition get_existing_video_ids {V : Type} (pd : library V)
    (metadata_file : option csv) : outcome (gset string) :=
  match metadata_file with
  | Some file =>
      match read_csv pd file with
      | Some df =>
          match column_values "Video ID" df with
          | Some ids => Done (list_to_set (omap (fun v => v ≫= str_of pd) ids))
          | None => Raise
          end
      | None => Raise
      end
  | None => Done ∅
  end.

(** [deduplicate_metadata(self)]: the final file written from the
    metadata file. *)
Definition deduplicate_metadata {V : Type} `{EqDecision V} (pd : library V)
    (metadata_file : csv) : outcome csv :=
  match read_csv pd metadata_file with
  | Some df =>
      match drop_duplicates "Video ID" df with
      | Some deduplicated => Done (to_csv pd deduplicated)
      | None => Raise
      end
  | None => Raise
  end.

(** *** The run *)

(** Step 1 of [process_urls]: the loop over the URLs, gathering
    [all_video_ids]. *)
Fixpoint gather_video_ids (fuel : nat) (srv : server)
    (existing_video_ids : gset string) (s : session)
    (all_video_ids : list string) (urls : list string)
  : option (outcome (list string) * session) :=
  match urls with
  | [] => Some (Done all_video_ids, s)
  | url :: urls' =>
      match parse_url url with
      | Some (Video video_id) =>
          if bool_decide (video_id ∉ existing_video_ids)
          then gather_video_ids fuel srv existing_video_ids s
                 (all_video_ids ++ [video_id]) urls'
          else gather_video_ids fuel srv existing_video_ids s
                 all_video_ids urls'
      | Some (Playlist playlist_id) =>
          match fetch_videos_from_playlist fuel srv s playlist_id with
          | Some (Done ids, s') =>
              gather_video_ids fuel srv existing_video_ids s'
                (all_video_ids ++ ids) urls'
          | Some (Exit, s') => Some (Exit, s')
          | Some (Raise, s') => Some (Raise, s')
          | None => None
          end
      | Some (Channel channel_id) =>
          match fetch_videos_from_channel fuel srv s channel_id with
          | Some (Done ids, s') =>
              gather_video_ids fuel srv existing_video_ids s'
                (all_video_ids ++ ids) urls'
          | Some (Exit, s') => Some (Exit, s')
          | Some (Raise, s') => Some (Raise, s')
          | None => None
          end
      | None =>
          gather_video_ids fuel srv existing_video_ids s all_video_ids urls'
      end
  end.

(** Step 2: [list(set(all_video_ids) - existing_video_ids)]. The order
    of the list is the one the set happens to have. *)
Definition new_video_ids (all_video_ids : list string)
    (existing_video_ids : gset string) : list string :=
  elements (list_to_set all_video_ids ∖ existing_video_ids).

Definition batch_size : nat := 50.

(** Step 3: the loop over the offsets [i] of the batches. *)
Fixpoint fetch_batches (srv : server) (s : session)
    (all_video_ids : list string) (metadata_ : list metadata)
    (offsets : list nat) : outcome (list metadata) * session :=
  match offsets with
  | [] => (Done metadata_, s)
  | i :: offsets' =>
      let batch_ids := Py.slice all_video_ids i (i + batch_size) in
      match fetch_video_metadata_batch srv s batch_ids with
      | (Done batch, s') =>
          fetch_batches srv s' all_video_ids (metadata_ ++ batch) offsets'
      | (Exit, s') => (Exit, s')
      | (Raise, s') => (Raise, s')
      end
  end.

(** [process_urls(self)] up to the metadata it hands to
    [save_metadata_to_csv], given the input URLs and the metadata
    file. *)
Definition process_urls {V : Type} (pd : library V) (fuel : nat)
    (srv : server) (s : session) (urls : list string)
    (metadata_file : option csv)
  : option (outcome (list metadata) * session) :=
  match get_existing_video_ids pd metadata_file with
  | Done existing_video_ids =>
      match gather_video_ids fuel srv existing_video_ids s [] urls with
      | Some (Done all_video_ids, s1) =>
          let all_video_ids' :=
            new_video_ids all_video_ids existing_video_ids in
          Some (fetch_batches srv s1 all_video_ids' []
                  (Py.range_step (length all_video_ids') batch_size))
      | Some (Exit, s1) => Some (Exit, s1)
      | Some (Raise, s1) => Some (Raise, s1)
      | None => None
      end
  | Exit => Some (Exit, s)
  | Raise => Some (Raise, s)
  end.

End YouTubeMetadataExtractor.

(** ** [vdata.py] *)

Module Vdata.

Import Api Pandas.

(** *** Credential pool *)

(** The module-level [API_KEYS] and [current_key_index]. A key is
    [None] when the pool is the fallback [[API_KEY]] of an unset
    environment variable. *)
Record pool := {
  API_KEYS : list (option string);
  current_key_index : nat
}.

Definition init (keys : list (option string)) : pool :=
  {| API_KEYS := keys; current_key_index := 0 |}.

(** [switch_api_key()]. The remainder by an empty pool is Python's
    [ZeroDivisionError]. *)
Definition switch_api_key (g : pool) : outcome pool :=
  match length (API_KEYS g) with
  | O => Raise
  | S _ as n =>
      Done {| API_KEYS := API_KEYS g;
              current_key_index := ((current_key_index g + 1) mod n)%nat |}
  end.

(** *** URL classification *)

(** [extract_identifier(url)]: the pair [(identifier, type)]. *)
Definition extract_identifier (url : string)
  : option string * option string :=
  let match_playlist :=
    Py.re_search ["playlist?list="] (Py.is_not "&") url in
  let match_video :=
    Py.re_search ["watch?v="; "/v/"] Py.is_id_char url in
  let match_channel := Py.re_search ["/channel/"] (Py.is_not "/") url in
  let match_handle := Py.re_search ["@"] (Py.is_not "/") url in
  match match_playlist, match_video, match_channel, match_handle with
  | Some g, _, _, _ => (Some g, Some "playlist")
  | None, Some g, _, _ => (Some g, Some "video")
  | None, None, Some g, _ => (Some g, Some "channel_id")
  | None, None, None, Some g => (Some g, Some "handle")
  | None, None, None, None => (None, None)
  end.

(** *** Known identifiers *)

(** A row as [csv.DictReader] yields it: the dictionary of the header
    zipped with the cells, a later column of the same name winning, and
    then every field that the row is too short for set to [None]. (The
    cells beyond the header go under the key [None], which is no
    field.) *)
Definition dict_row (fieldnames row : list string)
  : gmap string (option string) :=
  foldl (fun d key => <[key := None]> d)
    (list_to_map (reverse (zip fieldnames (Some <$> row))))
    (drop (length row) fieldnames).

(** [row['Video ID'] for row in reader]: [Raise] is the [KeyError] of a
    header without the column. The reader skips the lines without a
    cell. A row too short for the column holds [None] there, which is no
    identifier. *)
Fixpoint video_ids_of_rows (fieldnames : list string)
    (rows : list (list string)) : outcome (list string) :=
  match rows with
  | [] => Done []
  | [] :: rows' => video_ids_of_rows fieldnames rows'
  | row :: rows' =>
      match dict_row fieldnames row !! "Video ID" with
      | Some v =>
          match video_ids_of_rows fieldnames rows' with
          | Done ids =>
              match v with
              | Some video_id => Done (video_id :: ids)
              | None => Done ids
              end
          | Exit => Exit
          | Raise => Raise
          end
      | None => Raise
      end
  end.

(** The loop over [os.listdir(metadata_dir)], filling [existing_ids]. *)
Fixpoint read_existing_ids (files : list (string * csv))
    (existing_ids : gset string) : outcome (gset string) :=
  match files with
  | [] => Done existing_ids
  | (file, content) :: files' =>
      if Py.endswith ".csv" file
      then
        match video_ids_of_rows (header content) (lines content) with
        | Done ids =>
            read_existing_ids files' (existing_ids ∪ list_to_set ids)
        | Exit => Exit
        | Raise => Raise
        end
      else read_existing_ids files' existing_ids
  end.

(** The known-ID index that [check_existing_video_ids] builds; the
    directory is [None] when it does not exist, which is the
    [FileNotFoundError] of [os.listdir]. *)
Definition existing_ids_of (metadata_dir : option (list (string * csv)))
  : outcome (gset string) :=
  match metadata_dir with
  | None => Raise
  | Some files => read_existing_ids files ∅
  end.

(** [check_existing_video_ids(video_ids)] *)
Definition check_existing_video_ids
    (metadata_dir : option (list (string * csv)))
    (video_ids : list string) : outcome (list string) :=
  match existing_ids_of metadata_dir with
  | Done existing_ids =>
      Done (filter (fun video_id => video_id ∉ existing_ids) video_ids)
  | Exit => Exit
  | Raise => Raise
  end.

(** *** Detail fetch *)

Definition CATEGORY_MAPPING : gmap string string :=
  list_to_map
    [("1", "Film & Animation"); ("2", "Autos & Vehicles"); ("10", "Music");
     ("15", "Pets & Animals"); ("17", "Sports"); ("19", "Travel & Events");
     ("20", "Gaming"); ("22", "People & Blogs"); ("23", "Comedy");
     ("24", "Entertainment"); ("25", "News & Politics");
     ("26", "How-to & Style"); ("27", "Education");
     ("28", "Science & Technology"); ("29", "Nonprofits & Activism")].

(** The dictionary appended to [video_data] for one item. *)
Record video_row := {
  Video_ID : string;
  Title : string;
  Channel_ID : string;
  Author : string;
  Description : option string;
  Category : string;
  Topics : string;
  Length_Seconds : Z;
  Published : string;
  Audio_Language : string;
  Views : string;
  Tags : string
}.

(** What the run does besides computing, in order. *)
Inductive event :=
  | Execute (batch_ids : list string)
  | LogError
  | Sleep (seconds : Z).

(** The state of a run: the number of [execute()] calls made so far
    and the events so far, oldest first. *)
Record run := {
  calls : nat;
  trace : list event
}.

Definition start : run := {| calls := 0; trace := [] |}.

Definition emit (e : event) (st : run) : run :=
  {| calls := calls st; trace := trace st ++ [e] |}.

Definition executed (batch_ids : list string) (st : run) : run :=
  {| calls := S (calls st); trace := trace st ++ [Execute batch_ids] |}.

Section WithLibraries.

(** [int(isodate.parse_duration(duration).total_seconds())] of the
    [isodate] package, [None] when it raises. *)
Variable isodate_seconds : string -> option Z.

(** [parse_duration(duration)]; [isodate] raises on [None]. *)
Definition parse_duration (duration : option string) : Z :=
  match duration with
  | Some d => default 0 (isodate_seconds d)
  | None => 0
  end.

Definition video_row_of_item (item : video_item) : video_row :=
  let topics := default [] (topicCategories item) in
  let category :=
    default "Unknown"
      (CATEGORY_MAPPING !! default "Unknown" (categoryId item)) in
  {| Video_ID := id item;
     Title := title item;
     Channel_ID := channelId item;
     Author := channelTitle item;
     Description := description item;
     Category := category;
     Topics := Py.join ", " topics;
     Length_Seconds := parse_duration (Some (duration item));
     Published := publishedAt item;
     Audio_Language := default "Unknown" (defaultAudioLanguage item);
     Views := default "0" (viewCount item);
     Tags := Py.join ", " (default [] (tags item)) |}.

(** The server: what [request.execute()] gives at the call number
    [n] for a batch, [None] when it raises. *)
Variable videos_list : nat -> list string -> option (list video_item).

(** The [while retries > 0] loop of [get_video_metadata] on one
    batch. *)
Fixpoint fetch_batch (retries : nat) (batch_ids : list string)
    (st : run) (video_data : list video_row) : run * list video_row :=
  match retries with
  | O => (st, video_data)
  | S retries' =>
      match videos_list (calls st) batch_ids with
      | Some response =>
          (executed batch_ids st,
           video_data ++ (video_row_of_item <$> response))
      | None =>
          let st1 := emit LogError (executed batch_ids st) in
          if (0 <? retries')%nat
          then fetch_batch retries' batch_ids (emit (Sleep 5) st1)
                 video_data
          else fetch_batch retries' batch_ids st1 video_data
      end
  end.

(** The [for i in range(0, len(video_ids), 50)] loop. *)
Fixpoint fetch_batches (video_ids : list string) (offsets : list nat)
    (st : run) (video_data : list video_row) : run * list video_row :=
  match offsets with
  | [] => (st, video_data)
  | i :: offsets' =>
      let batch_ids := Py.slice video_ids i (i + 50) in
      let '(st', video_data') := fetch_batch 3 batch_ids st video_data in
      fetch_batches video_ids offsets' st' video_data'
  end.

(** [get_video_metadata(video_ids)], after the service is built. *)
Definition get_video_metadata (video_ids : list string) (st : run)
  : run * list video_row :=
  fetch_batches video_ids (Py.range_step (length video_ids) 50) st [].

(** [get_playlist_videos] and [get_channel_videos] as [handle_errors]
    wraps them: the identifiers listed, or [None] after an error. *)
Variable get_playlist_videos : string -> option (list string).
Variable get_channel_videos : string -> option (list string).

(** [process_url(url)]: the data it hands to [save_to_csv], [None]
    for an unsupported URL. Iterating over the [None] of a failed
    listing is a [TypeError]. *)
Definition process_url (metadata_dir : option (list (string * csv)))
    (st : run) (url : string)
  : outcome (option (list video_row)) * run :=
  let '(identifier, url_type) := extract_identifier url in
  let listed :=
    match identifier, url_type with
    | Some i, Some t =>
        if String.eqb t "playlist" then Some (get_playlist_videos i)
        else if String.eqb t "channel_id"
        then Some (get_channel_videos i)
        else None
    | _, _ => None
    end in
  match listed with
  | None => (Done None, st)
  | Some None => (Raise, st)
  | Some (Some video_ids) =>
      match check_existing_video_ids metadata_dir video_ids with
      | Done video_ids' =>
          let '(st', video_data) := get_video_metadata video_ids' st in
          (Done (Some video_data), st')
      | Exit => (Exit, st)
      | Raise => (Raise, st)
      end
  end.

End WithLibraries.

End Vdata.

(** ** [test/vdata_old.py] *)

Module VdataOld.

Record pool := {
  API_KEYS : list string;
  current_key_index : nat
}.

(** [switch_api_key()]: [Raise] is the exception
    "All API keys have been exhausted." and the [ZeroDivisionError]
    of an empty pool. *)
Definition switch_api_key (g : pool) : outcome pool :=
  match length (API_KEYS g) with
  | O => Raise
  | S _ as n =>
      let idx := ((current_key_index g + 1) mod n)%nat in
      if (idx =? 0)%nat then Raise
      else Done {| API_KEYS := API_KEYS g; current_key_index := idx |}
  end.

(** [s.split(sep)[i]]; [None] is the [IndexError]. *)
Definition piece (i : nat) (sep s : string) : option string :=
  Py.item i (Py.split sep s).

(** [extract_identifier(url)]: the pair [(identifier, type)], [None]
    for an [IndexError]. *)
Definition extract_identifier (url : string)
  : option (option string * option string) :=
  if Py.contains "playlist?list=" url
  then (fun i => (Some i, Some "playlist")) <$> piece 1 "list=" url
  else if Py.contains "watch?v=" url
  then (fun i => (Some i, Some "video"))
         <$> (piece 1 "watch?v=" url ≫= piece 0 "&")
  else if Py.contains "youtu.be/" url
  then (fun i => (Some i, Some "video"))
         <$> (piece 1 "youtu.be/" url ≫= piece 0 "?")
  else if Py.contains "shorts/" url
  then (fun i => (Some i, Some "video"))
         <$> (piece 1 "shorts/" url ≫= piece 0 "?")
  else if Py.contains "/channel/" url
  then (fun i => (Some i, Some "channel_id")) <$> piece 1 "/channel/" url
  else if Py.contains "@" url
  then (fun i => (Some i, Some "handle")) <$> piece 1 "@" url
  else Some (None, None).

End VdataOld.

(** ** [deduplication.py] *)

Module Deduplication.

Import Pandas.

(** [deduplicate_dataframe(df, key_column)] *)
Definition deduplicate_dataframe {V : Type} `{EqDecision V}
    (df : DataFrame V) (key_column : string) : DataFrame V :=
  match drop_duplicates key_column df with
  | None => df
  | Some deduplicated => reset_index deduplicated
  end.

End Deduplication.

(** ** Durations as the specification writes them *)

Module Iso8601.

(** A run of decimal digits, at least one: the [#] of [PT#H#M#S]. *)
Fixpoint all_digits (ds : string) : bool :=
  match ds with
  | EmptyString => true
  | String c ds' => Py.is_digit c && all_digits ds'
  end.

Definition is_number (ds : string) : bool :=
  match ds with
  | EmptyString => false
  | String _ _ => all_digits ds
  end.

(** A component that may be omitted. *)
Definition well_formed (g : option string) : Prop :=
  match g with
  | Some ds => is_number ds = true
  | None => True
  end.

Definition render (g : option string) (unit : string) : string :=
  match g with
  | Some ds => ds +:+ unit
  | None => EmptyString
  end.

(** The text [PT#H#M#S] with the given components. *)
Definition duration_string (h m s : option string) : string :=
  "PT" +:+ render h "H" +:+ render m "M" +:+ render s "S".

(** The number a run of digits denotes, read as a decimal numeral. *)
Definition decimal_value (ds : string) : Z :=
  match DecimalString.NilEmpty.uint_of_string ds with
  | Some d => Z.of_nat (Nat.of_uint d)
  | None => 0
  end.



(** The units that may still follow the given components. *)
Definition later_units (h m s : option string) : list ascii :=
  match s, m, h with
  | Some _, _, _ => []
  | None, Some _, _ => ["S"%char]
  | None, None, Some _ => ["M"%char; "S"%char]
  | None, None, None => ["H"%char; "M"%char; "S"%char]
  end.


(** The values of the digits of a run. *)
Definition digit_value (c : ascii) : Z := Z.of_N (Py.code c) - 48.

Fixpoint digit_values (ds : string) : list Z :=
  match ds with
  | EmptyString => []
  | String c ds' => digit_value c :: digit_values ds'
  end.


(** The decimal numeral of a natural number. *)
Definition numeral (n : nat) : string :=
  DecimalString.NilEmpty.string_of_uint (Nat.to_uint n).

End Iso8601.

(** ** Runs of quota-exceeded responses *)

Module Quota.

(** What [n] consecutive quota-exceeded responses do to a pool whose
    rotation is [switch]: each response calls [switch] once. The result
    is the number of rotations made and how the run stands after the
    last response. *)
Fixpoint responses {P : Type} (switch : P -> outcome P) (n : nat)
    (pool : P) (rotations : nat) : nat * outcome P :=
  match n with
  | O => (rotations, Done pool)
  | S n' =>
      match switch pool with
      | Done pool' => responses switch n' pool' (S rotations)
      | Exit => (rotations, Exit)
      | Raise => (rotations, Raise)
      end
  end.

End Quota.

(** ** Playlists as the server holds them *)

Module Playlist.

Import Api YouTubeMetadataExtractor.

(** The pages of a playlist, in the order the continuation tokens
    chain them from [token] on; [None] when the chain does not end
    within [n] pages. [pages token] is the page the server holds for a
    token. *)
Fixpoint chain (pages : option string -> page) (n : nat)
    (token : option string) : option (list page) :=
  match n with
  | O => None
  | S n' =>
      let p := pages token in
      if falsy (nextPageToken p) then Some [p]
      else cons p <$> chain pages n' (nextPageToken p)
  end.

(** From its call number [first] on, the server answers a request for
    a page of the playlist with that page, except on the calls that the
    schedule marks, where it answers that the quota is exceeded. *)
Definition answers (srv : server) (playlist_id : string)
    (pages : option string -> page) (first : nat) (schedule : list bool)
  : Prop :=
  forall (j : nat) (token : option string),
    match playlistItems_list srv (first + j) playlist_id token with
    | Ok response => schedule !! j <> Some true /\ response = pages token
    | HttpError status content =>
        schedule !! j = Some true /\ quota_exceeded status content = true
    end.

(** The number of quota-exceeded answers of a schedule. *)
Definition faults (schedule : list bool) : nat :=
  length (filter (fun b => b = true) schedule).

(** A server for the examples: the playlist ["PL"] of three pages, and
    the quota exceeded on the listed calls. *)
Definition example_pages (token : option string) : page :=
  match token with
  | None => {| items := ["v1"; "v2"]; nextPageToken := Some "t1" |}
  | Some "t1" => {| items := ["v3"]; nextPageToken := Some "t2" |}
  | Some _ => {| items := ["v4"; "v5"]; nextPageToken := None |}
  end.

Definition example_server (schedule : list bool) : server :=
  {| playlistItems_list := fun n _ token =>
       if default false (schedule !! n)
       then HttpError 403 "quotaExceeded"
       else Ok (example_pages token);
     channels_list := fun _ _ => Ok None;
     videos_list := fun _ _ => Ok [] |}.

End Playlist.

(** ** Detail requests as the server answers them *)

Module Detail.

Import Api.

(** The resource of a video, for the examples. *)
Definition item_of (video_id : string) : video_item :=
  {| id := video_id; title := "title"; channelId := "channel";
     channelTitle := "author"; description := None;
     categoryId := Some "10"; topicCategories := None;
     duration := "PT1M"; publishedAt := "2024-01-01T00:00:00Z";
     defaultAudioLanguage := None; viewCount := Some "7";
     tags := None |}.

(** A server for the examples: [execute()] raises on the listed calls
    and answers the others with the resource of each video asked
    for. *)
Definition example_videos_list (failing : list nat) (n : nat)
    (batch_ids : list string) : option (list video_item) :=
  if bool_decide (n ∈ failing) then None else Some (item_of <$> batch_ids).

(** 120 identifiers, which make three batches. *)
Definition example_ids : list string := Iso8601.numeral <$> seq 0 120.

(** What three failed attempts on a batch leave in the trace. *)
Definition three_failures (batch_ids : list string) : list Vdata.event :=
  [Vdata.Execute batch_ids; Vdata.LogError; Vdata.Sleep 5;
   Vdata.Execute batch_ids; Vdata.LogError; Vdata.Sleep 5;
   Vdata.Execute batch_ids; Vdata.LogError].

(** The batches of identifiers of the detail requests in a trace. *)
Definition requests (events : list Vdata.event) : list (list string) :=
  omap (fun e => match e with
                 | Vdata.Execute batch_ids => Some batch_ids
                 | _ => None
                 end) events.

End Detail.

(** ** A reader for the examples *)

Module Inference.

Import Pandas.

(** The values of the examples: integers, strings and the missing
    value. *)
Inductive value :=
  | Int (n : Z)
  | Str (s : string)
  | NaN.

#[global] Instance value_eq_dec : EqDecision value.
Proof. solve_decision. Defined.

(** The cells of a column as pandas types them in the examples: a
    column of decimal numerals is a column of integers; in another
    column a cell is the string it holds, and the missing value when it
    is empty. The other types that pandas infers (floating-point numbers,
    booleans), its other markers of a missing value and its bounds on
    integers are in none of the examples. *)
Definition values_of (cells : list string) : list value :=
  if forallb Iso8601.is_number cells
  then (fun c => Int (Py.int_acc 0 (Iso8601.digit_values c))) <$> cells
  else (fun c => if decide (c = EmptyString) then NaN else Str c) <$> cells.

(** The cells of the column at position [j]. *)
Definition column_cells (j : nat) (ls : list (list string)) : list string :=
  (fun l => default EmptyString (l !! j)) <$> ls.

(** The frame read from a file whose lines all have as many cells as
    the header, the header not empty; the examples hold no other
    file. *)
Definition read (file : csv) : option (DataFrame value) :=
  if bool_decide (header file = [])
  then None
  else if forallb (fun l => (length l =? length (header file))%nat)
            (lines file)
  then
    let typed :=
      (fun j => values_of (column_cells j (lines file)))
        <$> seq 0 (length (header file)) in
    Some {| columns := header file;
            rows := (fun i => (i, omap (fun column => column !! i) typed))
                      <$> seq 0 (length (lines file)) |}
  else None.

Definition pandas : library value :=
  {| read_csv := read;
     str_of := fun v => match v with Str s => Some s | _ => None end;
     text_of := fun v =>
       match v with
       | Int n => NilEmpty.string_of_uint (N.to_uint (Z.to_N n))
       | Str s => s
       | NaN => EmptyString
       end |}.

End Inference.

(** ** The further helpers of the class *)

Module ExtractorStore.

(** The seconds [exponential_backoff(self, retries)] sleeps; [retries]
    is a count of attempts. *)
Definition exponential_backoff (retries : nat) : Z :=
  Z.min 60 (2 ^ Z.of_nat retries).

End ExtractorStore.

(** ** The service and the listings of [vdata.py] *)

Module VdataService.

Import Api Vdata.

Section WithStrip.

(** [str.strip] *)
Variable strip : string -> string.

(** [load_api_keys()]: the file is [None] when it does not exist, and
    its lines otherwise. *)
Definition load_api_keys (api_keys_txt : option (list string))
    : list string :=
  match api_keys_txt with
  | None => []
  | Some lines_ =>
      strip <$> filter (fun key => strip key <> EmptyString) lines_
  end.

(** [API_KEYS = load_api_keys() or [API_KEY]] *)
Definition API_KEYS_of (api_keys_txt : option (list string))
    (API_KEY : option string) : list (option string) :=
  match load_api_keys api_keys_txt with
  | [] => [API_KEY]
  | keys => Some <$> keys
  end.

End WithStrip.

(** [build_youtube_service()], one call of the function on itself per
    unit of fuel. [build n key] tells whether the call number [n] of
    [build] succeeds with the key. The result is the pool as the call
    leaves it and the number of calls of [build] made. *)
Fixpoint build_youtube_service (fuel : nat)
    (build : nat -> option string -> bool) (attempts : nat) (g : pool)
  : option (outcome (pool * nat)) :=
  match fuel with
  | O => None
  | S fuel' =>
      match API_KEYS g !! current_key_index g with
      | None => Some Raise
      | Some api_key =>
          if build attempts api_key then Some (Done (g, S attempts))
          else
            match switch_api_key g with
            | Done g' => build_youtube_service fuel' build (S attempts) g'
            | Exit => Some Exit
            | Raise => Some Raise
            end
      end
  end.

(** The [while request] loop of [get_playlist_videos]; [execute n token]
    is the answer of the call number [n] for the page of the token,
    [None] when it raises. [list_next] gives no request when the response
    has no continuation token. *)
Fixpoint list_pages (fuel : nat)
    (execute : nat -> option string -> option page) (calls : nat)
    (token : option string) (video_ids : list string)
  : option (outcome (list string) * nat) :=
  match fuel with
  | O => None
  | S fuel' =>
      match execute calls token with
      | None => Some (Raise, S calls)
      | Some response =>
          let video_ids' := video_ids ++ items response in
          if YouTubeMetadataExtractor.falsy (nextPageToken response)
          then Some (Done video_ids', S calls)
          else list_pages fuel' execute (S calls) (nextPageToken response)
                 video_ids'
      end
  end.

(** What the wrapper of [handle_errors] returns for a call that returned
    or raised, and the pool it leaves. *)
Definition handle_errors {A : Type} (result : outcome A) (g : pool)
  : outcome (option A * pool) :=
  match result with
  | Done a => Done (Some a, g)
  | Exit => Exit
  | Raise =>
      match switch_api_key g with
      | Done g' => Done (None, g')
      | Exit => Exit
      | Raise => Raise
      end
  end.

(** [get_playlist_videos(playlist_id)] with its decorator, the service
    built: the identifiers or [None], the pool and the number of calls
    made. *)
Definition get_playlist_videos (fuel : nat)
    (execute : nat -> option string -> option page) (calls : nat) (g : pool)
  : option (outcome (option (list string) * pool) * nat) :=
  match list_pages fuel execute calls None [] with
  | None => None
  | Some (result, calls') => Some (handle_errors result g, calls')
  end.

(** What a call of [get_playlist_videos] that returned hands to
    [process_url]. *)
Definition returned
    (answer : option (outcome (option (list string) * pool) * nat))
  : option (list string) :=
  match answer with
  | Some (Done (video_ids, _), _) => video_ids
  | _ => None
  end.

End VdataService.

(** ** Reference definitions for the further properties *)

Module Reference.

Import Api YouTubeMetadataExtractor.

(** The loop of [fetch_videos_from_playlist] without its own count of
    retries. *)
Fixpoint fetch_loop_uncounted (fuel : nat) (srv : server)
    (playlist_id : string) (s : session) (video_ids : list string)
    (next_page_token : option string)
  : option (outcome (list string) * session) :=
  match fuel with
  | O => None
  | S fuel' =>
      match playlistItems_list srv (calls s) playlist_id next_page_token with
      | Ok response =>
          let video_ids' := video_ids ++ items response in
          if falsy (nextPageToken response)
          then Some (Done video_ids', tick s)
          else fetch_loop_uncounted fuel' srv playlist_id (tick s) video_ids'
                 (nextPageToken response)
      | HttpError status content =>
          if quota_exceeded status content
          then
            match switch_api_key (self_ s) with
            | Done self' =>
                fetch_loop_uncounted fuel' srv playlist_id
                  (with_self self' (tick s)) video_ids next_page_token
            | Exit => Some (Exit, tick s)
            | Raise => Some (Raise, tick s)
            end
          else Some (Done video_ids, tick s)
      end
  end.

(** The text of a string after its last occurrence of a character, the
    whole string when there is none. *)
Fixpoint after_last (c : ascii) (s : string) : string :=
  match s with
  | EmptyString => EmptyString
  | String a s' =>
      if Py.contains (String c EmptyString) s' then after_last c s'
      else if Ascii.eqb a c then s' else s
  end.

(** All the characters of a string are in a class. *)
Fixpoint all_in (cls : ascii -> bool) (s : string) : bool :=
  match s with
  | EmptyString => true
  | String a s' => cls a && all_in cls s'
  end.

(** The first [k] pages of a playlist from [token] on, each with a
    continuation token, and the token of the page that follows them;
    [None] when the playlist ends before. *)
Fixpoint first_pages (pages : option string -> page) (k : nat)
    (token : option string) : option (list page * option string) :=
  match k with
  | O => Some ([], token)
  | S k' =>
      let p := pages token in
      if falsy (nextPageToken p) then None
      else
        match first_pages pages k' (nextPageToken p) with
        | Some (ps, token') => Some (p :: ps, token')
        | None => None
        end
  end.

End Reference.

(** * Properties *)

(** ** Strings *)

Section Strings.

Import Py.

Lemma append_nil (b : string) : EmptyString +:+ b = b.
Proof. reflexivity. Qed.

Lemma append_cons (x : ascii) (a b : string) :
  String x a +:+ b = String x (a +:+ b).
Proof. reflexivity. Qed.

Lemma append_assoc (a b c : string) : (a +:+ b) +:+ c = a +:+ b +:+ c.
Proof.
  induction a as [|x a IH]; [done |].
  by rewrite !append_cons, IH.
Qed.

Lemma append_empty_r (a : string) : a +:+ EmptyString = a.
Proof.
  induction a as [|x a IH]; [done |].
  by rewrite append_cons, IH.
Qed.

Lemma strip_prefix_append (p s : string) : strip_prefix p (p +:+ s) = Some s.
Proof.
  induction p as [|a p IH]; [done |].
  rewrite append_cons. simpl. by rewrite Ascii.eqb_refl.
Qed.

Lemma startswith_append (p s : string) :
  startswith p s = true -> exists rest, s = p +:+ rest.
Proof.
  revert s. induction p as [|a p IH]; intros s Hp; [by exists s |].
  destruct s as [|b s]; [done |]. cbn [startswith] in Hp.
  apply andb_true_iff in Hp as [Hab Hp].
  apply Ascii.eqb_eq in Hab as ->.
  destruct (IH _ Hp) as [rest ->]. by exists rest.
Qed.


(** What [span] returns is a run of the class followed by a character
    outside of it, and the two make up the input. *)
Lemma span_spec (cls : ascii -> bool) (s run rest : string) :
  span cls s = (run, rest) ->
  s = run +:+ rest /\
  match rest with String c _ => cls c = false | EmptyString => True end.
Proof.
  revert run rest. induction s as [|c s IH]; simpl; intros run rest H.
  - by inversion H.
  - destruct (cls c) eqn:Hc.
    + destruct (span cls s) as [run' rest'] eqn:Hs.
      inversion H; subst. destruct (IH _ _ eq_refl) as [-> Hrest].
      done.
    + inversion H; subst. by rewrite append_nil, Hc.
Qed.

End Strings.

(** ** Durations *)

Section Durations.

Import Py Iso8601 YouTubeMetadataExtractor.

Lemma is_number_all_digits (ds : string) :
  is_number ds = true -> all_digits ds = true.
Proof. by destruct ds. Qed.

(** *** Digits *)

Lemma digit_of_ascii_digit (c : ascii) (s : string) :
  is_digit c = true -> digit (String c s) = Some (1%nat, digit_value c).
Proof.
  destruct c as [[] [] [] [] [] [] [] []]; intros Hc;
    try discriminate Hc; reflexivity.
Qed.

Lemma digit_of_ascii_other (c : ascii) (s : string) :
  (code c <? 128)%N = true -> is_digit c = false ->
  digit (String c s) = None.
Proof.
  destruct c as [[] [] [] [] [] [] [] []]; intros Hc Hd;
    try discriminate Hc; try discriminate Hd; reflexivity.
Qed.

(** A greedy run of digits stops at the first character that is not a
    digit. *)
Lemma digits_ascii_run (ds : string) (c : ascii) (rest : string) :
  all_digits ds = true -> (code c <? 128)%N = true -> is_digit c = false ->
  digits (ds +:+ String c rest) = (digit_values ds, String c rest).
Proof.
  intros Hds Hc Hd. unfold digits. induction ds as [|d ds IH].
  - rewrite append_nil. cbn [digits_aux digit_values].
    by rewrite digit_of_ascii_other.
  - cbn [all_digits] in Hds. apply andb_true_iff in Hds as [Hdigit Hds].
    rewrite append_cons. cbn [digits_aux digit_values].
    rewrite digit_of_ascii_digit by done.
    change (1 - 1)%nat with 0%nat. by rewrite (IH Hds).
Qed.

Lemma digit_nonnegative (s : string) (n : nat) (v : Z) :
  digit s = Some (n, v) -> 0 <= v.
Proof.
  unfold digit, decimal. destruct (decode s) as [[cp k]|]; [| done].
  destruct (List.find _ decimal_zeros) as [zero|]; [| done].
  intros [= _ <-]. apply N2Z.is_nonneg.
Qed.

Lemma digits_aux_nonnegative (s : string) :
  forall (skip : nat) (vs : list Z) (rest : string),
    digits_aux skip s = (vs, rest) -> Forall (fun v => 0 <= v) vs.
Proof.
  induction s as [|c s IH]; intros skip vs rest; cbn [digits_aux].
  - by intros [= <- <-].
  - destruct skip as [|k]; [| apply IH].
    destruct (digit (String c s)) as [[n v]|] eqn:Hdigit;
      [| by intros [= <- <-]].
    destruct (digits_aux (n - 1) s) as [vs' rest'] eqn:Hrest.
    intros [= <- <-]. constructor; [by eapply digit_nonnegative |].
    by eapply IH.
Qed.

Lemma int_acc_nonnegative (ds : list Z) :
  forall acc, 0 <= acc -> Forall (fun d => 0 <= d) ds -> 0 <= int_acc acc ds.
Proof.
  induction ds as [|d ds IH]; intros acc Hacc Hds; cbn [int_acc]; [done |].
  apply Forall_cons in Hds as [Hd Hds]. apply IH; [lia | done].
Qed.

(** *** Components *)

(** A component that is there is taken. *)
Lemma component_take (u : ascii) (ds rest : string) :
  is_number ds = true -> (code u <? 128)%N = true -> is_digit u = false ->
  component u (ds +:+ String u rest) = (Some (digit_values ds), rest).
Proof.
  intros Hds Hu Hd. unfold component.
  rewrite digits_ascii_run by auto using is_number_all_digits.
  destruct ds as [|d ds]; [done |]. cbn [digit_values].
  by rewrite Ascii.eqb_refl.
Qed.

(** A text at which the pattern does not go on with the unit leaves the
    component out, and nothing is consumed. *)
Lemma component_skip (u : ascii) (units : list ascii) (text : string) :
  u ∈ units -> goes_on units text = false ->
  component u text = (None, text).
Proof.
  intros Hu. unfold goes_on, component.
  destruct (digits text) as [[|d ds] [|c rest]]; try done.
  intros Hc. apply bool_decide_eq_false in Hc.
  destruct (Ascii.eqb_spec c u) as [->|]; [done | done].
Qed.

Lemma goes_on_component (units : list ascii) (ds : string) (c : ascii)
    (rest : string) :
  is_number ds = true -> (code c <? 128)%N = true -> is_digit c = false ->
  goes_on units (ds +:+ String c rest) = bool_decide (c ∈ units).
Proof.
  intros Hds Hc Hd. unfold goes_on.
  rewrite digits_ascii_run by auto using is_number_all_digits.
  by destruct ds.
Qed.

Lemma goes_on_empty (units : list ascii) :
  goes_on units EmptyString = false.
Proof. reflexivity. Qed.

(** What a component that is taken holds: digits, each with a value that
    is not negative. *)
Lemma component_values (u : ascii) (s rest : string) (vs : list Z) :
  component u s = (Some vs, rest) -> Forall (fun v => 0 <= v) vs.
Proof.
  unfold component.
  destruct (digits s) as [vs' tl] eqn:Hdigits.
  apply digits_aux_nonnegative in Hdigits.
  destruct vs' as [|d ds]; [done |]. destruct tl as [|c tl]; [done |].
  destruct (Ascii.eqb c u); by intros [= <- <-].
Qed.

(** *** Conversion *)



Lemma length_digit_values (ds : string) :
  length (digit_values ds) = String.length ds.
Proof. induction ds as [|c ds IH]; [done |]. cbn. by rewrite IH. Qed.



(** The pattern consumes exactly the components of a well-formed
    duration, whatever follows them, unless the pattern goes on at what
    follows. *)
Lemma match_duration_components (h m s : option string) (junk : string) :
  well_formed h -> well_formed m -> well_formed s ->
  goes_on (later_units h m s) junk = false ->
  match_duration (duration_string h m s +:+ junk)
  = Some (digit_values <$> h, digit_values <$> m, digit_values <$> s, junk).
Proof.
  intros Hh Hm Hs Hjunk. unfold duration_string, match_duration.
  rewrite !append_assoc, strip_prefix_append.
  assert (HS : component "S" (render s "S" +:+ junk)
               = (digit_values <$> s, junk)).
  { destruct s as [ds|]; simpl.
    - rewrite append_assoc. by apply component_take.
    - eapply component_skip; [| by apply Hjunk].
      destruct m, h; simpl; set_solver. }
  assert (HM : component "M" (render m "M" +:+ render s "S" +:+ junk)
               = (digit_values <$> m, render s "S" +:+ junk)).
  { destruct m as [dm|]; simpl.
    - rewrite append_assoc. by apply component_take.
    - rewrite append_nil. destruct s as [ds|]; simpl.
      + rewrite append_assoc.
        apply (component_skip _ ["M"%char]); [set_solver |].
        by rewrite append_cons, append_nil, goes_on_component.
      + eapply component_skip; [| by apply Hjunk].
        destruct h; simpl; set_solver. }
  assert (HH : component "H"
                 (render h "H" +:+ render m "M" +:+ render s "S" +:+ junk)
               = (digit_values <$> h,
                  render m "M" +:+ render s "S" +:+ junk)).
  { destruct h as [dh|]; simpl.
    - rewrite append_assoc. by apply component_take.
    - rewrite append_nil. destruct m as [dm|]; simpl.
      + rewrite append_assoc.
        apply (component_skip _ ["H"%char]); [set_solver |].
        by rewrite append_cons, append_nil, goes_on_component.
      + rewrite append_nil. destruct s as [ds|]; simpl.
        * rewrite append_assoc.
          apply (component_skip _ ["H"%char]); [set_solver |].
          by rewrite append_cons, append_nil, goes_on_component.
        * eapply component_skip; [| by apply Hjunk]. set_solver. }
  by rewrite HH, HM, HS.
Qed.


Lemma decimal_value_numeral (n : nat) :
  decimal_value (numeral n) = Z.of_nat n.
Proof.
  unfold decimal_value, numeral.
  by rewrite NilEmpty.usu, Unsigned.of_to.
Qed.

Lemma all_digits_of_uint (d : Decimal.uint) :
  all_digits (NilEmpty.string_of_uint d) = true.
Proof. induction d; simpl; auto. Qed.

Lemma is_number_numeral (n : nat) : is_number (numeral n) = true.
Proof.
  unfold numeral.
  assert (Hnil : Nat.to_uint n <> Decimal.Nil).
  { rewrite <- (Unsigned.of_to n) at 1. rewrite Unsigned.to_of.
    unfold Decimal.unorm. by destruct (Decimal.nzhead _). }
  pose proof (all_digits_of_uint (Nat.to_uint n)) as Hall.
  destruct (Nat.to_uint n); simpl in *; done.
Qed.


(** What [parse_duration] returns is not negative. *)
Lemma parse_duration_returns_nonnegative (text : option string) (n : Z) :
  parse_duration text = Done n -> 0 <= n.
Proof.
  destruct text as [d|]; [| by intros [= <-]].
  unfold parse_duration. destruct d as [|a d]; [by intros [= <-] |].
  unfold match_duration.
  destruct (strip_prefix "PT" (String a d)) as [s0|]; [| by intros [= <-]].
  destruct (component "H" s0) as [h s1] eqn:HH.
  destruct (component "M" s1) as [m s2] eqn:HM.
  destruct (component "S" s2) as [s s3] eqn:HS.
  assert (Hvalue : forall u t g rest v,
             component u t = (g, rest) -> group_value g = Done v -> 0 <= v).
  { intros u t [[|v0 vs]|] rest v Hg; cbn [group_value];
      [by intros [= <-] | | by intros [= <-]].
    apply component_values in Hg. unfold Py.int.
    destruct (_ <? _)%nat; [done |]. intros [= <-].
    apply (int_acc_nonnegative (v0 :: vs) 0); [lia | done]. }
  destruct (group_value h) as [hours| |] eqn:Hh; [| done | done].
  destruct (group_value m) as [minutes| |] eqn:Hm; [| done | done].
  destruct (group_value s) as [seconds| |] eqn:Hs; [| done | done].
  intros [= <-].
  pose proof (Hvalue _ _ _ _ _ HH Hh). pose proof (Hvalue _ _ _ _ _ HM Hm).
  pose proof (Hvalue _ _ _ _ _ HS Hs). lia.
Qed.



(** C8, at the input where the code departs from it: [PT1H2M3Sjunk] is
    not a duration of the form [PT#H#M#S], and [parse_duration] returns
    3723 for it, not 0. *)
Theorem parse_duration_malformed_nonzero :
  (forall h m s : option string,
     well_formed h -> well_formed m -> well_formed s ->
     duration_string h m s <> "PT1H2M3Sjunk")
  /\ parse_duration (Some "PT1H2M3Sjunk") = Done 3723.
Proof.
  split; [| reflexivity].
  intros h m s Hh Hm Hs Heq.
  pose proof (match_duration_components h m s EmptyString Hh Hm Hs
                (goes_on_empty _)) as Hmatch.
  rewrite append_empty_r, Heq in Hmatch.
  vm_compute in Hmatch. congruence.
Qed.

Lemma parse_duration_malformed_nonzero_witness :
  duration_string (Some "1") (Some "2") (Some "3") <> "PT1H2M3Sjunk"
  /\ parse_duration (Some "PT1H2M3Sjunk") = Done 3723.
Proof.
  split.
  - apply (proj1 parse_duration_malformed_nonzero); reflexivity.
  - apply (proj2 parse_duration_malformed_nonzero).
Defined.




End Durations.

(** ** Credential rotation *)

Section Rotation.

Import Quota.

Lemma extractor_switch_next (keys : list string) (i : nat) :
  (i + 1 < length keys)%nat ->
  YouTubeMetadataExtractor.switch_api_key
    {| YouTubeMetadataExtractor.api_keys := keys;
       YouTubeMetadataExtractor.current_key_index := i |}
  = Done {| YouTubeMetadataExtractor.api_keys := keys;
            YouTubeMetadataExtractor.current_key_index := (i + 1)%nat |}.
Proof.
  intros Hlt. unfold YouTubeMetadataExtractor.switch_api_key.
  cbn [YouTubeMetadataExtractor.api_keys
       YouTubeMetadataExtractor.current_key_index].
  destruct (length keys) as [|n]; [lia |].
  rewrite Nat.mod_small by lia.
  by destruct (Nat.eqb_spec (i + 1) 0) as [|_]; [lia |].
Qed.

Lemma extractor_switch_wrap (keys : list string) (i : nat) :
  (i + 1 = length keys)%nat ->
  YouTubeMetadataExtractor.switch_api_key
    {| YouTubeMetadataExtractor.api_keys := keys;
       YouTubeMetadataExtractor.current_key_index := i |}
  = Exit.
Proof.
  intros Heq. unfold YouTubeMetadataExtractor.switch_api_key.
  cbn [YouTubeMetadataExtractor.api_keys
       YouTubeMetadataExtractor.current_key_index].
  rewrite <- Heq. replace (i + 1)%nat with (S i) by lia.
  by rewrite Nat.Div0.mod_same.
Qed.

Lemma responses_add {P : Type} (switch : P -> outcome P) (a b : nat)
    (g : P) (r : nat) :
  responses switch (a + b) g r
  = match responses switch a g r with
    | (r', Done g') => responses switch b g' r'
    | other => other
    end.
Proof.
  revert g r. induction a as [|a IH]; intros g r; simpl; [done |].
  destruct (switch g); auto.
Qed.

Lemma extractor_rotations (keys : list string) (k i r : nat) :
  (i + k < length keys)%nat ->
  responses YouTubeMetadataExtractor.switch_api_key k
    {| YouTubeMetadataExtractor.api_keys := keys;
       YouTubeMetadataExtractor.current_key_index := i |} r
  = ((r + k)%nat,
     Done {| YouTubeMetadataExtractor.api_keys := keys;
             YouTubeMetadataExtractor.current_key_index := (i + k)%nat |}).
Proof.
  revert i r. induction k as [|k IH]; intros i r Hlt; cbn [responses].
  - by rewrite !Nat.add_0_r.
  - rewrite extractor_switch_next, IH by lia.
    f_equal; [lia |]. do 2 f_equal. lia.
Qed.

(** In [YouTubeMetadataExtractor.py] a pool of N credentials, started
    at the first, rotates on each of the first N - 1 quota-exceeded
    responses and exits on the Nth, after N - 1 rotations. *)
Lemma extractor_exhaustion (keys : list string) :
  (1 <= length keys)%nat ->
  (forall k, (k < length keys)%nat ->
     responses YouTubeMetadataExtractor.switch_api_key k
       (YouTubeMetadataExtractor.init keys) 0
     = (k, Done {| YouTubeMetadataExtractor.api_keys := keys;
                   YouTubeMetadataExtractor.current_key_index := k |}))
  /\ responses YouTubeMetadataExtractor.switch_api_key (length keys)
       (YouTubeMetadataExtractor.init keys) 0
     = ((length keys - 1)%nat, Exit).
Proof.
  intros HN. split.
  - intros k Hk. apply (extractor_rotations keys k 0 0). lia.
  - replace (length keys) with ((length keys - 1) + 1)%nat at 1 by lia.
    rewrite responses_add. unfold YouTubeMetadataExtractor.init.
    rewrite (extractor_rotations keys _ 0 0) by lia.
    cbn [responses]. rewrite extractor_switch_wrap by lia. done.
Qed.

Lemma vdata_switch (keys : list (option string)) (i : nat) :
  keys <> [] ->
  Vdata.switch_api_key
    {| Vdata.API_KEYS := keys; Vdata.current_key_index := i |}
  = Done {| Vdata.API_KEYS := keys;
            Vdata.current_key_index := ((i + 1) mod length keys)%nat |}.
Proof.
  intros Hkeys. unfold Vdata.switch_api_key.
  cbn [Vdata.API_KEYS Vdata.current_key_index].
  by destruct keys.
Qed.

Lemma vdata_rotations (keys : list (option string)) (k i r : nat) :
  keys <> [] -> (i < length keys)%nat ->
  responses Vdata.switch_api_key k
    {| Vdata.API_KEYS := keys; Vdata.current_key_index := i |} r
  = ((r + k)%nat,
     Done {| Vdata.API_KEYS := keys;
             Vdata.current_key_index := ((i + k) mod length keys)%nat |}).
Proof.
  intros Hkeys. revert i r.
  induction k as [|k IH]; intros i r Hi; cbn [responses].
  - by rewrite !Nat.add_0_r, Nat.mod_small.
  - rewrite vdata_switch, IH by (done || by apply Nat.mod_upper_bound;
                                   destruct keys).
    rewrite Nat.Div0.add_mod_idemp_l.
    f_equal; [lia |]. do 3 f_equal. lia.
Qed.

(** C1, where the code departs from it: in [vdata.py] the run of N
    quota-exceeded responses on a pool of N credentials makes N
    rotations, signals nothing, and leaves the cursor back on the
    first credential; so does every longer run. *)
Theorem vdata_rotation_never_signals (keys : list (option string))
    (k : nat) :
  keys <> [] ->
  responses Vdata.switch_api_key (length keys) (Vdata.init keys) 0
  = (length keys,
     Done {| Vdata.API_KEYS := keys; Vdata.current_key_index := 0 |})
  /\ exists g, responses Vdata.switch_api_key k (Vdata.init keys) 0
              = (k, Done g).
Proof.
  intros Hkeys. unfold Vdata.init.
  assert (0 < length keys)%nat by (destruct keys; simpl; [done | lia]).
  rewrite !vdata_rotations by done.
  split; [| by eexists].
  by rewrite Nat.add_0_l, Nat.Div0.mod_same.
Qed.

Lemma vdata_rotation_never_signals_witness :
  responses Vdata.switch_api_key 3
    (Vdata.init [Some "k1"; Some "k2"; Some "k3"]) 0
  = (3%nat,
     Done {| Vdata.API_KEYS := [Some "k1"; Some "k2"; Some "k3"];
             Vdata.current_key_index := 0 |}).
Proof.
  apply (vdata_rotation_never_signals
           [Some "k1"; Some "k2"; Some "k3"] 0). done.
Defined.

(** The old revision of the script raises on the wrap, as the class
    exits. *)
Lemma vdata_old_exhaustion :
  responses VdataOld.switch_api_key 3
    {| VdataOld.API_KEYS := ["k1"; "k2"; "k3"];
       VdataOld.current_key_index := 0 |} 0
  = (2%nat, Raise).
Proof. reflexivity. Qed.

End Rotation.

(** ** Playlist traversal *)

Section Traversal.

Import Api YouTubeMetadataExtractor Playlist.

Lemma chain_nonempty (pages : option string -> page) (n : nat)
    (token : option string) (ps : list page) :
  chain pages n token = Some ps -> (1 <= length ps)%nat.
Proof.
  destruct n as [|n]; simpl; [done |].
  destruct (falsy _); [intros [= <-]; simpl; lia |].
  destruct (chain pages n _); simpl; [| done].
  intros [= <-]. simpl. lia.
Qed.

Lemma faults_cons (b : bool) (schedule : list bool) :
  faults (b :: schedule)
  = ((if b then 1 else 0) + faults schedule)%nat.
Proof. unfold faults. rewrite filter_cons. by destruct b. Qed.

Lemma answers_next (srv : server) (playlist_id : string)
    (pages : option string -> page) (first : nat) (b : bool)
    (schedule : list bool) :
  answers srv playlist_id pages first (b :: schedule) ->
  answers srv playlist_id pages (S first) schedule.
Proof.
  intros Hans j token. specialize (Hans (S j) token).
  by rewrite <- Nat.add_succ_comm in Hans.
Qed.

Lemma answers_nil_next (srv : server) (playlist_id : string)
    (pages : option string -> page) (first : nat) :
  answers srv playlist_id pages first [] ->
  answers srv playlist_id pages (S first) [].
Proof.
  intros Hans j token. specialize (Hans (S j) token).
  by rewrite <- Nat.add_succ_comm in Hans.
Qed.

(** One iteration on a quota-exceeded answer, with a credential left:
    the loop goes on with the next credential, the same identifiers
    and the same continuation token. *)
Lemma fetch_loop_quota_step (fuel : nat) (srv : server)
    (playlist_id : string) (keys : list string) (i c : nat)
    (rq : list (list string)) (video_ids : list string)
    (token : option string) (retries : nat) (status : Z)
    (content : string) :
  playlistItems_list srv c playlist_id token = HttpError status content ->
  quota_exceeded status content = true ->
  (i + 1 < length keys)%nat -> (retries < length keys)%nat ->
  fetch_loop (S fuel) srv playlist_id
    {| self_ := {| api_keys := keys; current_key_index := i |};
       calls := c; requested := rq |} video_ids token retries
  = fetch_loop fuel srv playlist_id
      {| self_ := {| api_keys := keys; current_key_index := (i + 1)%nat |};
         calls := S c; requested := rq |} video_ids token (S retries).
Proof.
  intros Hcall Hquota Hi Hr. cbn [fetch_loop calls self_].
  rewrite Hcall, Hquota.
  assert (Hswitch : switch_api_key
                      {| api_keys := keys; current_key_index := i |}
                    = Done {| api_keys := keys;
                              current_key_index := (i + 1)%nat |}).
  { unfold switch_api_key. cbn [api_keys current_key_index].
    destruct (length keys) as [|n]; [lia |].
    rewrite Nat.mod_small by lia.
    by destruct (Nat.eqb_spec (i + 1) 0) as [|_]; [lia |]. }
  rewrite Hswitch. cbn [api_keys].
  destruct (Nat.ltb_spec (length keys) (S retries)) as [|_]; [lia |].
  done.
Qed.

(** The loop, entered with [video_ids] collected and [token] to fetch
    next, returns [video_ids] followed by the items of the pages that
    remain, whatever calls in between answer that the quota is
    exceeded, as long as credentials are left for them. *)
Lemma fetch_loop_pages (srv : server) (playlist_id : string)
    (pages : option string -> page) (keys : list string) (fuel : nat) :
  forall (schedule : list bool) (ps : list page) (n : nat)
    (token : option string) (i retries c : nat)
    (rq : list (list string)) (video_ids : list string),
    chain pages n token = Some ps ->
    answers srv playlist_id pages c schedule ->
    (retries <= i)%nat ->
    (i + faults schedule < length keys)%nat ->
    (length schedule + length ps <= fuel)%nat ->
    exists s',
      fetch_loop fuel srv playlist_id
        {| self_ := {| api_keys := keys; current_key_index := i |};
           calls := c; requested := rq |} video_ids token retries
      = Some (Done (video_ids ++ concat (items <$> ps)), s')
      /\ api_keys (self_ s') = keys /\ requested s' = rq.
Proof.
  induction fuel as [|fuel IH];
    intros schedule ps n token i retries c rq video_ids
      Hchain Hans Hr Hkeys Hfuel.
  { pose proof (chain_nonempty _ _ _ _ Hchain). lia. }
  pose proof (Hans 0%nat token) as Hcall. rewrite Nat.add_0_r in Hcall.
  destruct (playlistItems_list srv c playlist_id token)
    as [response|status content] eqn:Hexec.
  - destruct Hcall as [Hok ->].
    destruct n as [|n]; [done |]. cbn [chain] in Hchain.
    cbn [fetch_loop calls self_]. rewrite Hexec.
    destruct (falsy (nextPageToken (pages token))) eqn:Hlast.
    + injection Hchain as <-. eexists.
      split; [cbn; by rewrite app_nil_r | done].
    + destruct (chain pages n (nextPageToken (pages token)))
        as [ps'|] eqn:Hrest; [| done].
      injection Hchain as <-.
      assert (Hnext : exists schedule',
                 answers srv playlist_id pages (S c) schedule'
                 /\ (faults schedule' <= faults schedule)%nat
                 /\ (length schedule' <= length schedule)%nat).
      { destruct schedule as [|b schedule].
        - exists []. split; [by apply answers_nil_next | done].
        - exists schedule. split; [by eapply answers_next |].
          rewrite faults_cons. simpl. lia. }
      destruct Hnext as (schedule' & Hans' & Hfaults' & Hlen').
      destruct (IH schedule' ps' n
                  (nextPageToken (pages token)) i retries (S c) rq
                  (video_ids ++ items (pages token)))
        as (s' & Hrun & Hs'); auto.
      * lia.
      * simpl in Hfuel. lia.
      * exists s'. split; [| done].
        unfold tick. cbn [self_ calls requested]. rewrite Hrun.
        cbn. by rewrite <- app_assoc.
  - destruct Hcall as [Hfault Hquota].
    destruct schedule as [|b schedule]; [done |].
    injection Hfault as ->. rewrite faults_cons in Hkeys.
    rewrite (fetch_loop_quota_step _ _ _ _ _ _ _ _ _ _ _ _ Hexec Hquota)
      by lia.
    apply (IH schedule ps n); auto.
    + by eapply answers_next.
    + lia.
    + lia.
    + simpl in Hfuel. lia.
Qed.

Lemma example_server_answers (schedule : list bool) :
  answers (example_server schedule) "PL" example_pages 0 schedule.
Proof.
  intros j token. simpl.
  by destruct (schedule !! j) as [[|]|].
Qed.

(** C2. In a playlist traversal a page fetch that fails because the
    quota is exceeded rotates the credential and fetches the same page
    again, with the identifiers collected so far kept; and a traversal
    interrupted by such rotations, at any calls and as many as there
    are credentials left, returns the items of all the pages of the
    playlist, in the order of the server. *)
Theorem playlist_rotation_keeps_pages :
  (forall (fuel : nat) (srv : server) (playlist_id : string)
     (keys : list string) (i c : nat) (rq : list (list string))
     (video_ids : list string) (token : option string) (retries : nat)
     (status : Z) (content : string),
     playlistItems_list srv c playlist_id token
     = HttpError status content ->
     quota_exceeded status content = true ->
     (i + 1 < length keys)%nat -> (retries < length keys)%nat ->
     fetch_loop (S fuel) srv playlist_id
       {| self_ := {| api_keys := keys; current_key_index := i |};
          calls := c; requested := rq |} video_ids token retries
     = fetch_loop fuel srv playlist_id
         {| self_ := {| api_keys := keys;
                        current_key_index := (i + 1)%nat |};
            calls := S c; requested := rq |}
         video_ids token (S retries))
  /\ (forall (srv : server) (playlist_id : string)
        (pages : option string -> page) (keys : list string)
        (schedule : list bool) (ps : list page) (n i c fuel : nat)
        (rq : list (list string)),
        chain pages n None = Some ps ->
        answers srv playlist_id pages c schedule ->
        (i + faults schedule < length keys)%nat ->
        (length schedule + length ps <= fuel)%nat ->
        exists s',
          fetch_videos_from_playlist fuel srv
            {| self_ := {| api_keys := keys; current_key_index := i |};
               calls := c; requested := rq |} playlist_id
          = Some (Done (concat (items <$> ps)), s')).
Proof.
  split.
  - intros. by eapply fetch_loop_quota_step.
  - intros srv playlist_id pages keys schedule ps n i c fuel rq
      Hchain Hans Hkeys Hfuel.
    destruct (fetch_loop_pages srv playlist_id pages keys fuel schedule
                ps n None i 0 c rq [] Hchain Hans) as (s' & Hrun & _);
      [lia | done | done |].
    by exists s'.
Qed.

Lemma playlist_rotation_keeps_pages_witness :
  exists s',
    fetch_videos_from_playlist 7%nat
      (example_server [false; true; false; true])
      {| self_ := {| api_keys := ["k1"; "k2"; "k3"];
                     current_key_index := 0%nat |};
         calls := 0%nat; requested := [] |} "PL"
    = Some (Done (concat (items <$>
              [example_pages None; example_pages (Some "t1");
               example_pages (Some "t2")])), s').
Proof.
  apply (proj2 playlist_rotation_keeps_pages
           (example_server [false; true; false; true]) "PL"
           example_pages ["k1"; "k2"; "k3"] [false; true; false; true]
           _ 3%nat 0%nat 0%nat 7%nat []).
  - reflexivity.
  - apply example_server_answers.
  - vm_compute. lia.
  - simpl. lia.
Defined.

(** When every answer is that the quota is exceeded, the traversal
    started on the first of N credentials rotates N - 1 times and exits
    on the Nth answer. *)
Lemma fetch_loop_exhaustion (srv : server) (playlist_id : string)
    (keys : list string) :
  (forall n token, exists status content,
      playlistItems_list srv n playlist_id token
      = HttpError status content
      /\ quota_exceeded status content = true) ->
  forall (d i retries c fuel : nat) (rq : list (list string))
    (video_ids : list string) (token : option string),
    (i + d + 1 = length keys)%nat -> (retries <= i)%nat ->
    (d + 1 <= fuel)%nat ->
    fetch_loop fuel srv playlist_id
      {| self_ := {| api_keys := keys; current_key_index := i |};
         calls := c; requested := rq |} video_ids token retries
    = Some (Exit,
            {| self_ := {| api_keys := keys;
                           current_key_index := (length keys - 1)%nat |};
               calls := (c + d + 1)%nat; requested := rq |}).
Proof.
  intros Hquota. induction d as [|d IH];
    intros i retries c fuel rq video_ids token Hi Hr Hfuel;
    (destruct fuel as [|fuel]; [lia |]);
    destruct (Hquota c token) as (status & content & Hexec & Hq).
  - cbn [fetch_loop calls self_]. rewrite Hexec, Hq.
    unfold switch_api_key. cbn [api_keys current_key_index].
    replace (length keys) with (S i) by lia.
    rewrite Nat.add_1_r, Nat.Div0.mod_same. cbn.
    replace (i - 0)%nat with i by lia.
    by replace (c + 0 + 1)%nat with (S c) by lia.
  - rewrite (fetch_loop_quota_step _ _ _ _ _ _ _ _ _ _ _ _ Hexec Hq)
      by lia.
    rewrite (IH (i + 1)%nat) by lia.
    do 3 f_equal. lia.
Qed.

End Traversal.

(** ** URL classification *)

Section Classification.

Import YouTubeMetadataExtractor.

(** A string with none of the marks that [parse_url] looks for is not
    classified. *)
Lemma parse_url_unrelated (url : string) :
  Py.contains "youtube.com/watch" url = false ->
  Py.contains "youtu.be" url = false ->
  Py.contains "youtube.com/playlist" url = false ->
  Py.contains "youtube.com/channel" url = false ->
  Py.contains "@" url = false ->
  parse_url url = None.
Proof. intros H1 H2 H3 H4 H5. unfold parse_url. by rewrite H1, H2, H3, H4, H5. Qed.

(** A string that none of the four patterns of [vdata.py] matches is
    not classified. *)
Lemma extract_identifier_unrelated (url : string) :
  Py.re_search ["playlist?list="] (Py.is_not "&") url = None ->
  Py.re_search ["watch?v="; "/v/"] Py.is_id_char url = None ->
  Py.re_search ["/channel/"] (Py.is_not "/") url = None ->
  Py.re_search ["@"] (Py.is_not "/") url = None ->
  Vdata.extract_identifier url = (None, None).
Proof.
  intros H1 H2 H3 H4. unfold Vdata.extract_identifier.
  by rewrite H1, H2, H3, H4.
Qed.

(** A string with none of the marks of the old script is not
    classified, and no index is out of range. *)
Lemma old_extract_identifier_unrelated (url : string) :
  Py.contains "playlist?list=" url = false ->
  Py.contains "watch?v=" url = false ->
  Py.contains "youtu.be/" url = false ->
  Py.contains "shorts/" url = false ->
  Py.contains "/channel/" url = false ->
  Py.contains "@" url = false ->
  VdataOld.extract_identifier url = Some (None, None).
Proof.
  intros H1 H2 H3 H4 H5 H6. unfold VdataOld.extract_identifier.
  by rewrite H1, H2, H3, H4, H5, H6.
Qed.

Lemma classifiers_unrelated_example :
  parse_url "not a link" = None
  /\ Vdata.extract_identifier "not a link" = (None, None)
  /\ VdataOld.extract_identifier "not a link" = Some (None, None).
Proof. by repeat split. Qed.

(** The class and the old script classify the three links of the
    specification as it says. *)
Lemma classifiers_agree_on_examples :
  parse_url "https://www.youtube.com/watch?v=abc123" = Some (Video "abc123")
  /\ parse_url "https://youtu.be/abc123" = Some (Video "abc123")
  /\ parse_url "https://www.youtube.com/playlist?list=XYZ"
     = Some (Playlist "XYZ")
  /\ VdataOld.extract_identifier "https://www.youtube.com/watch?v=abc123"
     = Some (Some "abc123", Some "video")
  /\ VdataOld.extract_identifier "https://youtu.be/abc123"
     = Some (Some "abc123", Some "video")
  /\ VdataOld.extract_identifier "https://www.youtube.com/playlist?list=XYZ"
     = Some (Some "XYZ", Some "playlist").
Proof. by repeat split. Qed.

(** C3, where the code departs from it: [extract_identifier] of
    [vdata.py] classifies the watch link as the video [abc123] and the
    playlist link as the playlist [XYZ], but it has no pattern for the
    short link [https://youtu.be/abc123], which it leaves unclassified
    instead of classifying it as the video [abc123]. *)
Theorem extract_identifier_misses_short_link :
  Vdata.extract_identifier "https://www.youtube.com/watch?v=abc123"
  = (Some "abc123", Some "video")
  /\ Vdata.extract_identifier "https://www.youtube.com/playlist?list=XYZ"
     = (Some "XYZ", Some "playlist")
  /\ Vdata.extract_identifier "https://youtu.be/abc123" = (None, None).
Proof. by repeat split. Qed.

End Classification.

(** ** Consolidation *)

Section Consolidation.

Import Pandas.

Lemma keep_first_idempotent {A K : Type} `{EqDecision K} (key : A -> K)
    (seen : list K) (l : list A) :
  keep_first key seen (keep_first key seen l) = keep_first key seen l.
Proof.
  revert seen. induction l as [|x l IH]; intros seen; simpl; [done |].
  case_bool_decide as Hx; [apply IH |].
  simpl. rewrite bool_decide_eq_false_2 by done.
  by rewrite IH.
Qed.

Lemma keep_first_fmap {A B K : Type} `{EqDecision K} (f : A -> B)
    (key : B -> K) (seen : list K) (l : list A) :
  f <$> keep_first (fun x => key (f x)) seen l
  = keep_first key seen (f <$> l).
Proof.
  revert seen. induction l as [|x l IH]; intros seen; simpl; [done |].
  case_bool_decide; simpl; by rewrite IH.
Qed.

Lemma snd_labelled {A : Type} (l : list A) :
  snd <$> zip (seq 0 (length l)) l = l.
Proof. apply snd_zip. by rewrite length_seq. Qed.

Lemma deduplicate_dataframe_idempotent {V : Type} `{EqDecision V}
    (df : DataFrame V) (key_column : string) :
  let once := Deduplication.deduplicate_dataframe df key_column in
  Deduplication.deduplicate_dataframe once key_column = once.
Proof.
  unfold Deduplication.deduplicate_dataframe.
  destruct (drop_duplicates key_column df) as [df1|] eqn:H1; simpl.
  - unfold drop_duplicates in H1.
    destruct (column_position key_column (columns df)) as [k|] eqn:Hk;
      [| done].
    injection H1 as <-. unfold drop_duplicates at 1. simpl. rewrite Hk.
    unfold reset_index. simpl. f_equal.
    set (key := fun r : nat * list V => cell k (snd r)).
    set (vals := snd <$> keep_first key [] (rows df)).
    assert (Hvals : snd <$> keep_first key []
                      (zip (seq 0 (length (keep_first key [] (rows df)))) vals)
                    = vals).
    { unfold key at 1. rewrite (keep_first_fmap snd (cell k)).
      replace (length (keep_first key [] (rows df))) with (length vals)
        by (unfold vals; apply length_fmap).
      rewrite snd_labelled. unfold vals, key.
      rewrite (keep_first_fmap snd (cell k)).
      apply keep_first_idempotent. }
    rewrite Hvals. f_equal. f_equal.
    rewrite <- (length_fmap snd), Hvals.
    unfold vals. by rewrite length_fmap.
  - by rewrite H1.
Qed.

Lemma keep_first_AAB {R K : Type} `{EqDecision K} (key : R -> K)
    (r1 r2 r3 : R) :
  key r1 = key r2 -> key r3 <> key r1 ->
  keep_first key [] [r1; r2; r3] = [r1; r3].
Proof.
  intros H12 H31. simpl.
  rewrite (bool_decide_eq_true_2 (key r2 ∈ [key r1]))
    by (rewrite H12; apply list_elem_of_here).
  rewrite (bool_decide_eq_false_2 (key r3 ∈ [key r1])); [done |].
  intros Hin. by apply list_elem_of_singleton in Hin.
Qed.

(** What [deduplicate_metadata] writes, from the frame that pandas makes
    of the metadata file. *)
Lemma deduplicate_metadata_rows {V : Type} `{EqDecision V} (pd : library V)
    (file : csv) (df : DataFrame V) (k : nat) :
  read_csv pd file = Some df ->
  column_position "Video ID" (columns df) = Some k ->
  YouTubeMetadataExtractor.deduplicate_metadata pd file
  = Done {| header := columns df;
            lines := (fun r : nat * list V => text_of pd <$> snd r)
                       <$> keep_first
                             (fun r : nat * list V => cell k (snd r)) []
                             (rows df) |}.
Proof.
  intros Hread Hk. unfold YouTubeMetadataExtractor.deduplicate_metadata,
    drop_duplicates, to_csv.
  by rewrite Hread, Hk.
Qed.

(** C4. On a frame whose rows have the identifiers A, A and B, in this
    order, [deduplicate_dataframe] keeps the first row and the third, in
    this order, and consolidating what it returned changes nothing; and
    [deduplicate_metadata] writes the first row and the third of the
    frame that pandas makes of the metadata file, when their identifiers
    are A, A and B as pandas reads them. The identifiers that
    [deduplicate_metadata] compares are not those the file holds: of the
    lines [007], [007] and [7] it keeps one, written [7]; and
    consolidating the file it wrote can change it, [007] and [008]
    becoming [7] and [8] in a column that holds no other text any
    more. *)
Theorem consolidation_keeps_first_and_is_idempotent :
  (forall (V : Type) (EqV : EqDecision V) (cols : list string)
     (k i1 i2 i3 : nat) (r1 r2 r3 : list V),
     column_position "Video ID" cols = Some k ->
     cell k r1 = cell k r2 -> cell k r3 <> cell k r1 ->
     Deduplication.deduplicate_dataframe
       {| columns := cols; rows := [(i1, r1); (i2, r2); (i3, r3)] |}
       "Video ID"
     = {| columns := cols; rows := [(0%nat, r1); (1%nat, r3)] |})
  /\ (forall (V : Type) (EqV : EqDecision V) (df : DataFrame V)
        (key_column : string),
        Deduplication.deduplicate_dataframe
          (Deduplication.deduplicate_dataframe df key_column) key_column
        = Deduplication.deduplicate_dataframe df key_column)
  /\ (forall (V : Type) (EqV : EqDecision V) (pd : library V) (file : csv)
        (cols : list string) (k i1 i2 i3 : nat) (r1 r2 r3 : list V),
        read_csv pd file
        = Some {| columns := cols;
                  rows := [(i1, r1); (i2, r2); (i3, r3)] |} ->
        column_position "Video ID" cols = Some k ->
        cell k r1 = cell k r2 -> cell k r3 <> cell k r1 ->
        YouTubeMetadataExtractor.deduplicate_metadata pd file
        = Done {| header := cols;
                  lines := [text_of pd <$> r1; text_of pd <$> r3] |})
  /\ YouTubeMetadataExtractor.deduplicate_metadata Inference.pandas
       {| header := ["Video ID"]; lines := [["007"]; ["007"]; ["7"]] |}
     = Done {| header := ["Video ID"]; lines := [["7"]] |}
  /\ YouTubeMetadataExtractor.deduplicate_metadata Inference.pandas
       {| header := ["Video ID"; "Title"];
          lines := [["x"; "007"]; ["x"; "abc"]; ["y"; "008"]] |}
     = Done {| header := ["Video ID"; "Title"];
               lines := [["x"; "007"]; ["y"; "008"]] |}
  /\ YouTubeMetadataExtractor.deduplicate_metadata Inference.pandas
       {| header := ["Video ID"; "Title"];
          lines := [["x"; "007"]; ["y"; "008"]] |}
     = Done {| header := ["Video ID"; "Title"];
               lines := [["x"; "7"]; ["y"; "8"]] |}.
Proof.
  split; [| split; [| split; [| by repeat split]]].
  - intros V EqV cols k i1 i2 i3 r1 r2 r3 Hk H12 H31.
    unfold Deduplication.deduplicate_dataframe, drop_duplicates.
    cbn [columns rows]. rewrite Hk.
    rewrite (keep_first_AAB (fun r : nat * list V => cell k (snd r)))
      by done.
    done.
  - intros V EqV df key_column. apply deduplicate_dataframe_idempotent.
  - intros V EqV pd file cols k i1 i2 i3 r1 r2 r3 Hread Hk H12 H31.
    rewrite (deduplicate_metadata_rows pd file _ k Hread) by done.
    cbn [columns rows].
    rewrite (keep_first_AAB (fun r : nat * list V => cell k (snd r)))
      by done.
    done.
Qed.

Lemma consolidation_keeps_first_and_is_idempotent_witness :
  Deduplication.deduplicate_dataframe
    {| columns := ["Video ID"; "Title"];
       rows := [(0%nat, ["A"; "first"]); (1%nat, ["A"; "second"]);
                (2%nat, ["B"; "third"])] |}
    "Video ID"
  = {| columns := ["Video ID"; "Title"];
       rows := [(0%nat, ["A"; "first"]); (1%nat, ["B"; "third"])] |}
  /\ YouTubeMetadataExtractor.deduplicate_metadata Inference.pandas
       {| header := ["Video ID"; "Title"];
          lines := [["A"; "first"]; ["A"; "second"]; ["B"; "third"]] |}
     = Done {| header := ["Video ID"; "Title"];
               lines :=
                 [text_of Inference.pandas
                    <$> [Inference.Str "A"; Inference.Str "first"];
                  text_of Inference.pandas
                    <$> [Inference.Str "B"; Inference.Str "third"]] |}.
Proof.
  split.
  - apply (proj1 consolidation_keeps_first_and_is_idempotent string _
             ["Video ID"; "Title"] 0%nat);
      [reflexivity | reflexivity | vm_compute; discriminate].
  - apply (proj1 (proj2 (proj2
             consolidation_keeps_first_and_is_idempotent))
             Inference.value _ Inference.pandas _ _ 0%nat 0%nat 1%nat
             2%nat [Inference.Str "A"; Inference.Str "first"]
             [Inference.Str "A"; Inference.Str "second"]);
      [reflexivity | reflexivity | reflexivity | vm_compute; discriminate].
Defined.

End Consolidation.

(** ** Detail fetch with retries *)

Section Retries.

Import Vdata Detail.

Variable isodate_seconds : string -> option Z.
Variable videos_list : nat -> list string -> option (list Api.video_item).

Local Abbreviation fetch_batch := (Vdata.fetch_batch isodate_seconds videos_list).
Local Abbreviation fetch_batches := (Vdata.fetch_batches isodate_seconds videos_list).
Local Abbreviation get_video_metadata :=
  (Vdata.get_video_metadata isodate_seconds videos_list).

(** A batch takes as many calls as attempts are made, at most the
    budget. *)
Lemma fetch_batch_calls (retries : nat) (batch_ids : list string)
    (st : run) (video_data : list video_row) :
  (calls st <= calls (fetch_batch retries batch_ids st video_data).1
   <= calls st + retries)%nat.
Proof.
  revert st. induction retries as [|retries IH]; intros st; simpl; [lia |].
  destruct (videos_list (calls st) batch_ids); simpl; [lia |].
  destruct (Nat.ltb_spec 0 retries);
    match goal with
    | |- context [fetch_batch retries batch_ids ?st' video_data] =>
        specialize (IH st'); simpl in IH; lia
    end.
Qed.

(** An attempt that succeeds ends the loop on the batch with its
    records appended. *)
Lemma fetch_batch_success (retries : nat) (batch_ids : list string)
    (st : run) (video_data : list video_row)
    (response : list Api.video_item) :
  videos_list (calls st) batch_ids = Some response ->
  fetch_batch (S retries) batch_ids st video_data
  = (executed batch_ids st,
     video_data ++ (video_row_of_item isodate_seconds <$> response)).
Proof. intros Hok. simpl. by rewrite Hok. Qed.

(** Three attempts that fail use the budget up: two sleeps of five
    seconds in between, and no record appended. *)
Lemma fetch_batch_exhausted (batch_ids : list string) (st : run)
    (video_data : list video_row) :
  (forall k, (k < 3)%nat -> videos_list (calls st + k) batch_ids = None) ->
  fetch_batch 3 batch_ids st video_data
  = ({| calls := calls st + 3;
        trace := trace st ++ three_failures batch_ids |}, video_data).
Proof.
  intros Hfail.
  pose proof (Hfail 0%nat ltac:(lia)) as H0.
  pose proof (Hfail 1%nat ltac:(lia)) as H1.
  pose proof (Hfail 2%nat ltac:(lia)) as H2.
  rewrite Nat.add_0_r in H0. rewrite Nat.add_1_r in H1.
  replace (calls st + 2)%nat with (S (S (calls st))) in H2 by lia.
  cbn [Vdata.fetch_batch executed emit calls trace Nat.ltb Nat.leb].
  rewrite H0. cbn [calls]. rewrite H1. cbn [calls]. rewrite H2.
  unfold emit, executed, three_failures. cbn [calls trace].
  rewrite <- !app_assoc. simpl.
  do 2 f_equal. lia.
Qed.

Lemma fetch_batches_app (video_ids : list string) (before after : list nat)
    (st : run) (video_data : list video_row) :
  fetch_batches video_ids (before ++ after) st video_data
  = fetch_batches video_ids after
      (fetch_batches video_ids before st video_data).1
      (fetch_batches video_ids before st video_data).2.
Proof.
  revert st video_data.
  induction before as [|i before IH]; intros st video_data;
    cbn [Vdata.fetch_batches app]; [done |].
  destruct (fetch_batch 3 (Py.slice video_ids i (i + 50)) st video_data)
    as [st' video_data'].
  apply IH.
Qed.

(** The records fetched so far are never dropped. *)
Lemma fetch_batch_keeps (retries : nat) (batch_ids : list string)
    (st : run) (video_data : list video_row) :
  video_data `prefix_of` (fetch_batch retries batch_ids st video_data).2.
Proof.
  revert st. induction retries as [|retries IH]; intros st; simpl; [done |].
  destruct (videos_list (calls st) batch_ids); simpl;
    [by apply prefix_app_r |].
  destruct (Nat.ltb_spec 0 retries); apply IH.
Qed.

Lemma fetch_batches_keeps (video_ids : list string) (offsets : list nat)
    (st : run) (video_data : list video_row) :
  video_data `prefix_of` (fetch_batches video_ids offsets st video_data).2.
Proof.
  revert st video_data.
  induction offsets as [|i offsets IH]; intros st video_data;
    cbn [Vdata.fetch_batches]; [done |].
  pose proof (fetch_batch_keeps 3 (Py.slice video_ids i (i + 50)) st
                video_data) as Hkeep.
  destruct (fetch_batch 3 (Py.slice video_ids i (i + 50)) st video_data)
    as [st' video_data'].
  cbn [snd] in Hkeep.
  change (video_data
          `prefix_of` (fetch_batches video_ids offsets st' video_data').2).
  etrans; [exact Hkeep | apply IH].
Qed.

(** In [get_video_metadata] of [vdata.py] a batch is attempted at most 3
    times. When the fetch of a batch fails on all three attempts, the attempts
    are separated by sleeps of five seconds, the batch adds no record
    to the output, and the run goes on with the batches after it from
    the records it had: the batches before and after contribute as if
    the failed batch were not there, and the run returns its
    records. *)
Theorem failed_batch_is_skipped (video_ids : list string)
    (before after : list nat) (i : nat) (st : run) :
  let batch_ids := Py.slice video_ids i (i + 50) in
  let earlier := fetch_batches video_ids before st [] in
  Py.range_step (length video_ids) 50 = before ++ i :: after ->
  (forall k, (k < 3)%nat ->
     videos_list (calls earlier.1 + k) batch_ids = None) ->
  fetch_batch 3 batch_ids earlier.1 earlier.2
  = ({| calls := calls earlier.1 + 3;
        trace := trace earlier.1 ++ three_failures batch_ids |},
     earlier.2)
  /\ get_video_metadata video_ids st
     = fetch_batches video_ids after
         {| calls := calls earlier.1 + 3;
            trace := trace earlier.1 ++ three_failures batch_ids |}
         earlier.2
  /\ earlier.2 `prefix_of` (get_video_metadata video_ids st).2.
Proof.
  intros batch_ids earlier Hoffsets Hfail.
  assert (Hbatch : fetch_batch 3 batch_ids earlier.1 earlier.2
                   = ({| calls := calls earlier.1 + 3;
                         trace := trace earlier.1
                                  ++ three_failures batch_ids |},
                      earlier.2))
    by by apply fetch_batch_exhausted.
  assert (Hrun : get_video_metadata video_ids st
                 = fetch_batches video_ids after
                     {| calls := calls earlier.1 + 3;
                        trace := trace earlier.1
                                 ++ three_failures batch_ids |}
                     earlier.2).
  { unfold Vdata.get_video_metadata. rewrite Hoffsets, fetch_batches_app.
    fold earlier. cbn [Vdata.fetch_batches]. fold batch_ids.
    by rewrite Hbatch. }
  split; [done | split; [done |]].
  rewrite Hrun. apply fetch_batches_keeps.
Qed.

End Retries.

Lemma failed_batch_is_skipped_witness :
  let run_ :=
    Vdata.get_video_metadata (fun _ => None)
      (Detail.example_videos_list [1; 2; 3]%nat) Detail.example_ids
      Vdata.start in
  run_.2
  = (Vdata.video_row_of_item (fun _ => None) ∘ Detail.item_of)
      <$> (take 50 Detail.example_ids ++ drop 100 Detail.example_ids)
  /\ Vdata.calls run_.1 = 5%nat.
Proof.
  pose proof (failed_batch_is_skipped (fun _ => None)
                (Detail.example_videos_list [1; 2; 3]%nat)
                Detail.example_ids [0%nat] [100%nat] 50 Vdata.start)
    as Hskip.
  cbv zeta in Hskip.
  destruct Hskip as (_ & Hrun & _).
  - reflexivity.
  - intros k Hk.
    destruct k as [|[|[|k]]]; [reflexivity | reflexivity | reflexivity | lia].
  - cbv zeta. rewrite Hrun. vm_compute. split; reflexivity.
Defined.


(** ** No known identifier is requested again *)

Section Incremental.

Import Detail.

Lemma slice_elem_of {A : Type} (l : list A) (i j : nat) (x : A) :
  x ∈ Py.slice l i j -> x ∈ l.
Proof.
  unfold Py.slice. intros Hx.
  by apply (subseteq_drop i l), (subseteq_take (j - i)).
Qed.

Lemma requests_app (t1 t2 : list Vdata.event) :
  requests (t1 ++ t2) = requests t1 ++ requests t2.
Proof. apply omap_app. Qed.

(** The loop on a batch sends requests for that batch only. *)
Lemma vdata_fetch_batch_requests (isodate_seconds : string -> option Z)
    (videos_list : nat -> list string -> option (list Api.video_item))
    (retries : nat) (batch_ids : list string) (st : Vdata.run)
    (video_data : list Vdata.video_row) :
  exists n,
    requests (Vdata.trace
                (Vdata.fetch_batch isodate_seconds videos_list retries
                   batch_ids st video_data).1)
    = requests (Vdata.trace st) ++ replicate n batch_ids.
Proof.
  revert st. induction retries as [|retries IH]; intros st; simpl.
  - exists 0%nat. by rewrite app_nil_r.
  - destruct (videos_list (Vdata.calls st) batch_ids); simpl.
    + exists 1%nat. by rewrite requests_app.
    + destruct (Nat.ltb_spec 0 retries);
        match goal with
        | |- context [Vdata.fetch_batch _ _ retries batch_ids ?st' _] =>
            destruct (IH st') as [n Hn]; exists (S n); rewrite Hn
        end;
        unfold Vdata.emit, Vdata.executed; simpl;
        rewrite !requests_app; simpl; by rewrite <- !app_assoc.
Qed.

(** The loop over the batches sends requests for slices of the
    identifiers it was given. *)
Lemma vdata_fetch_batches_requests (isodate_seconds : string -> option Z)
    (videos_list : nat -> list string -> option (list Api.video_item))
    (video_ids : list string) (offsets : list nat) (st : Vdata.run)
    (video_data : list Vdata.video_row) :
  exists new,
    requests (Vdata.trace
                (Vdata.fetch_batches isodate_seconds videos_list video_ids
                   offsets st video_data).1)
    = requests (Vdata.trace st) ++ new
    /\ forall batch_ids video_id,
         batch_ids ∈ new -> video_id ∈ batch_ids -> video_id ∈ video_ids.
Proof.
  revert st video_data.
  induction offsets as [|i offsets IH]; intros st video_data;
    cbn [Vdata.fetch_batches].
  - exists []. split; [by rewrite app_nil_r | by intros ? ? ?%elem_of_nil].
  - destruct (vdata_fetch_batch_requests isodate_seconds videos_list 3
                (Py.slice video_ids i (i + 50)) st video_data) as [n Hn].
    destruct (Vdata.fetch_batch isodate_seconds videos_list 3
                (Py.slice video_ids i (i + 50)) st video_data)
      as [st' video_data'].
    destruct (IH st' video_data') as (new & Hnew & Hin).
    exists (replicate n (Py.slice video_ids i (i + 50)) ++ new).
    cbn [fst] in Hn. rewrite Hnew, Hn, <- app_assoc. split; [done |].
    intros batch_ids video_id [Hb|Hb]%elem_of_app Hv; [| by eapply Hin].
    apply elem_of_replicate in Hb as [-> _].
    by eapply slice_elem_of.
Qed.

(** The loop of the class over the batches does the same. *)
Lemma extractor_fetch_batches_requests
    (srv : YouTubeMetadataExtractor.server)
    (all_video_ids : list string) (offsets : list nat)
    (s : YouTubeMetadataExtractor.session)
    (metadata_ : list YouTubeMetadataExtractor.metadata) :
  exists new,
    YouTubeMetadataExtractor.requested
      (YouTubeMetadataExtractor.fetch_batches srv s all_video_ids metadata_
         offsets).2
    = YouTubeMetadataExtractor.requested s ++ new
    /\ forall batch_ids video_id,
         batch_ids ∈ new -> video_id ∈ batch_ids ->
         video_id ∈ all_video_ids.
Proof.
  revert s metadata_.
  induction offsets as [|i offsets IH]; intros s metadata_;
    cbn [YouTubeMetadataExtractor.fetch_batches].
  - exists []. split; [by rewrite app_nil_r | by intros ? ? ?%elem_of_nil].
  - set (batch_ids := Py.slice all_video_ids i
                        (i + YouTubeMetadataExtractor.batch_size)).
    assert (Hone : forall r s',
               YouTubeMetadataExtractor.fetch_video_metadata_batch srv s
                 batch_ids = (r, s') ->
               YouTubeMetadataExtractor.requested s'
               = YouTubeMetadataExtractor.requested s ++ [batch_ids]).
    { unfold YouTubeMetadataExtractor.fetch_video_metadata_batch.
      intros r s'.
      destruct (YouTubeMetadataExtractor.videos_list srv _ _);
        [by intros [= <- <-] |].
      destruct (YouTubeMetadataExtractor.quota_exceeded _ _);
        [| by intros [= <- <-]].
      destruct (YouTubeMetadataExtractor.switch_api_key _);
        by intros [= <- <-]. }
    assert (Hbatch : forall b v, b ∈ [batch_ids] -> v ∈ b ->
                                 v ∈ all_video_ids).
    { intros b v ->%list_elem_of_singleton Hv. by eapply slice_elem_of. }
    destruct (YouTubeMetadataExtractor.fetch_video_metadata_batch srv s
                batch_ids) as [[batch| |] s'] eqn:Hfetch;
      specialize (Hone _ _ eq_refl).
    + destruct (IH s' (metadata_ ++ batch)) as (new & Hnew & Hin).
      exists (batch_ids :: new). rewrite Hnew, Hone, <- app_assoc.
      split; [done |].
      intros b v [->|Hb]%elem_of_cons Hv;
        [by eapply slice_elem_of | by eapply Hin].
    + exists [batch_ids]. by split.
    + exists [batch_ids]. by split.
Qed.

Lemma fetch_loop_requested (fuel : nat)
    (srv : YouTubeMetadataExtractor.server) (playlist_id : string) :
  forall (s : YouTubeMetadataExtractor.session) (video_ids : list string)
    (token : option string) (retries : nat)
    (r : outcome (list string)) (s' : YouTubeMetadataExtractor.session),
    YouTubeMetadataExtractor.fetch_loop fuel srv playlist_id s video_ids
      token retries = Some (r, s') ->
    YouTubeMetadataExtractor.requested s'
    = YouTubeMetadataExtractor.requested s.
Proof.
  induction fuel as [|fuel IH]; intros s video_ids token retries r s';
    cbn [YouTubeMetadataExtractor.fetch_loop]; [done |].
  destruct (YouTubeMetadataExtractor.playlistItems_list srv _ _ _)
    as [response|status content].
  - destruct (YouTubeMetadataExtractor.falsy _); [by intros [= <- <-] |].
    intros Hrun. by rewrite (IH _ _ _ _ _ _ Hrun).
  - destruct (YouTubeMetadataExtractor.quota_exceeded _ _);
      [| by intros [= <- <-]].
    destruct (YouTubeMetadataExtractor.switch_api_key _) as [self'| |];
      [| by intros [= <- <-] | by intros [= <- <-]].
    destruct (_ <? _)%nat; [by intros [= <- <-] |].
    intros Hrun. by rewrite (IH _ _ _ _ _ _ Hrun).
Qed.

Lemma fetch_videos_from_channel_requested (fuel : nat)
    (srv : YouTubeMetadataExtractor.server) (channel_id : string) :
  forall (s : YouTubeMetadataExtractor.session)
    (r : outcome (list string)) (s' : YouTubeMetadataExtractor.session),
    YouTubeMetadataExtractor.fetch_videos_from_channel fuel srv s channel_id
    = Some (r, s') ->
    YouTubeMetadataExtractor.requested s'
    = YouTubeMetadataExtractor.requested s.
Proof.
  induction fuel as [|fuel IH]; intros s r s';
    cbn [YouTubeMetadataExtractor.fetch_videos_from_channel]; [done |].
  destruct (YouTubeMetadataExtractor.channels_list srv _ _)
    as [[uploads|]|status content].
  - intros Hrun. by rewrite (fetch_loop_requested _ _ _ _ _ _ _ _ _ Hrun).
  - by intros [= <- <-].
  - destruct (YouTubeMetadataExtractor.quota_exceeded _ _);
      [| by intros [= <- <-]].
    destruct (YouTubeMetadataExtractor.switch_api_key _) as [self'| |];
      [| by intros [= <- <-] | by intros [= <- <-]].
    intros Hrun. by rewrite (IH _ _ _ Hrun).
Qed.

(** Gathering the identifiers sends no detail request. *)
Lemma gather_video_ids_requested (fuel : nat)
    (srv : YouTubeMetadataExtractor.server) (existing : gset string)
    (urls : list string) :
  forall (s : YouTubeMetadataExtractor.session) (all_video_ids : list string)
    (r : outcome (list string)) (s' : YouTubeMetadataExtractor.session),
    YouTubeMetadataExtractor.gather_video_ids fuel srv existing s
      all_video_ids urls = Some (r, s') ->
    YouTubeMetadataExtractor.requested s'
    = YouTubeMetadataExtractor.requested s.
Proof.
  induction urls as [|url urls IH]; intros s all_video_ids r s';
    cbn [YouTubeMetadataExtractor.gather_video_ids]; [by intros [= <- <-] |].
  destruct (YouTubeMetadataExtractor.parse_url url) as [[v|pl|ch]|].
  - destruct (bool_decide _); apply IH.
  - destruct (YouTubeMetadataExtractor.fetch_videos_from_playlist
                fuel srv s pl) as [[[ids| |] s1]|] eqn:Hfetch; [| | | done];
      apply fetch_loop_requested in Hfetch.
    + intros Hrun. by rewrite (IH _ _ _ _ Hrun).
    + by intros [= <- <-].
    + by intros [= <- <-].
  - destruct (YouTubeMetadataExtractor.fetch_videos_from_channel
                fuel srv s ch) as [[[ids| |] s1]|] eqn:Hfetch; [| | | done];
      apply fetch_videos_from_channel_requested in Hfetch.
    + intros Hrun. by rewrite (IH _ _ _ _ Hrun).
    + by intros [= <- <-].
    + by intros [= <- <-].
  - apply IH.
Qed.

(** In the class a batch is attempted once: after an error that is not
    the quota it contributes no record and the loop goes on; after the
    quota is exceeded it does the same on the next credential, unless the
    pool is exhausted. *)
Lemma extractor_failed_batch_single_attempt
    (srv : YouTubeMetadataExtractor.server)
    (s : YouTubeMetadataExtractor.session) (video_ids : list string)
    (status : Z) (content : string) :
  YouTubeMetadataExtractor.videos_list srv
    (YouTubeMetadataExtractor.calls s) video_ids
  = YouTubeMetadataExtractor.HttpError status content ->
  YouTubeMetadataExtractor.quota_exceeded status content = false ->
  YouTubeMetadataExtractor.fetch_video_metadata_batch srv s video_ids
  = (Done [], YouTubeMetadataExtractor.request_videos video_ids s).
Proof.
  intros Hcall Hquota.
  unfold YouTubeMetadataExtractor.fetch_video_metadata_batch.
  by rewrite Hcall, Hquota.
Qed.

Lemma new_video_ids_spec (all_video_ids : list string)
    (existing : gset string) (video_id : string) :
  video_id ∈ YouTubeMetadataExtractor.new_video_ids all_video_ids existing
  <-> video_id ∈ all_video_ids /\ video_id ∉ existing.
Proof.
  unfold YouTubeMetadataExtractor.new_video_ids.
  rewrite elem_of_elements, elem_of_difference, elem_of_list_to_set. done.
Qed.

(** C6. Whatever the candidates and whatever the known-ID index, every
    identifier sent in a detail request is outside of the index: so for
    the requests that [process_url] of [vdata.py] adds to the trace, and
    so for the requests that [process_urls] of the class sends. The index
    of [vdata.py] holds the identifiers as the files hold them. The index
    of the class holds what pandas made of them, so that an identifier
    that the metadata file holds can be missing from it: the file holds
    [12345678901], a numeral, which the index of [vdata.py] has and the
    index of the class has not, and the class requests the video
    again. *)
Theorem known_ids_are_not_requested :
  (forall (isodate_seconds : string -> option Z)
     (videos_list : nat -> list string -> option (list Api.video_item))
     (get_playlist_videos get_channel_videos :
        string -> option (list string))
     (metadata_dir : option (list (string * Pandas.csv)))
     (st st' : Vdata.run) (url : string)
     (r : outcome (option (list Vdata.video_row)))
     (existing_ids : gset string),
     Vdata.process_url isodate_seconds videos_list get_playlist_videos
       get_channel_videos metadata_dir st url = (r, st') ->
     Vdata.existing_ids_of metadata_dir = Done existing_ids ->
     exists new,
       requests (Vdata.trace st') = requests (Vdata.trace st) ++ new
       /\ forall batch_ids video_id,
            batch_ids ∈ new -> video_id ∈ batch_ids ->
            video_id ∉ existing_ids)
  /\ (forall (V : Type) (pd : Pandas.library V) (fuel : nat)
        (srv : YouTubeMetadataExtractor.server)
        (s s' : YouTubeMetadataExtractor.session) (urls : list string)
        (metadata_file : option Pandas.csv)
        (r : outcome (list YouTubeMetadataExtractor.metadata))
        (existing_video_ids : gset string),
        YouTubeMetadataExtractor.process_urls pd fuel srv s urls
          metadata_file
        = Some (r, s') ->
        YouTubeMetadataExtractor.get_existing_video_ids pd metadata_file
        = Done existing_video_ids ->
        exists new,
          YouTubeMetadataExtractor.requested s'
          = YouTubeMetadataExtractor.requested s ++ new
          /\ forall batch_ids video_id,
               batch_ids ∈ new -> video_id ∈ batch_ids ->
               video_id ∉ existing_video_ids)
  /\ (let stored :=
        {| Pandas.header := ["Video ID"];
           Pandas.lines := [["12345678901"]] |} in
      Vdata.check_existing_video_ids (Some [("metadata.csv", stored)])
        ["12345678901"]
      = Done []
      /\ YouTubeMetadataExtractor.get_existing_video_ids Inference.pandas
           (Some stored)
         = Done ∅
      /\ YouTubeMetadataExtractor.process_urls Inference.pandas 0
           (Playlist.example_server [])
           (YouTubeMetadataExtractor.start ["k1"])
           ["https://youtu.be/12345678901"] (Some stored)
         = Some (Done [],
                 {| YouTubeMetadataExtractor.self_ :=
                      YouTubeMetadataExtractor.init ["k1"];
                    YouTubeMetadataExtractor.calls := 1;
                    YouTubeMetadataExtractor.requested :=
                      [["12345678901"]] |})).
Proof.
  split; [| split].
  - intros isodate_seconds videos_list gp gc metadata_dir st st' url r
      existing_ids Hrun Hexisting.
    assert (Hnone : exists new : list (list string),
               requests (Vdata.trace st) = requests (Vdata.trace st) ++ new
               /\ forall batch_ids video_id,
                    batch_ids ∈ new -> video_id ∈ batch_ids ->
                    video_id ∉ existing_ids).
    { exists []. split; [by rewrite app_nil_r | by intros ? ? ?%elem_of_nil]. }
    unfold Vdata.process_url in Hrun.
    destruct (Vdata.extract_identifier url) as [identifier url_type].
    match type of Hrun with
    | match ?listed with _ => _ end = _ =>
        destruct listed as [[video_ids|]|]
    end; [| by injection Hrun as <- <- | by injection Hrun as <- <-].
    unfold Vdata.check_existing_video_ids in Hrun.
    rewrite Hexisting in Hrun.
    set (video_ids' := filter (fun v => v ∉ existing_ids) video_ids) in Hrun.
    unfold Vdata.get_video_metadata in Hrun.
    destruct (vdata_fetch_batches_requests isodate_seconds videos_list
                video_ids' (Py.range_step (length video_ids') 50) st [])
      as (new & Hnew & Hin).
    destruct (Vdata.fetch_batches isodate_seconds videos_list video_ids'
                (Py.range_step (length video_ids') 50) st [])
      as [st1 video_data].
    injection Hrun as <- <-. exists new. split; [done |].
    intros batch_ids video_id Hb Hv.
    specialize (Hin _ _ Hb Hv). unfold video_ids' in Hin.
    by apply list_elem_of_filter in Hin as [Hnew' _].
  - intros V pd fuel srv s s' urls metadata_file r existing_video_ids
      Hrun Hexisting.
    unfold YouTubeMetadataExtractor.process_urls in Hrun.
    rewrite Hexisting in Hrun.
    destruct (YouTubeMetadataExtractor.gather_video_ids fuel srv
                existing_video_ids s [] urls)
      as [[[all_video_ids| |] s1]|] eqn:Hgather; [| | | done];
      apply gather_video_ids_requested in Hgather.
    + set (ids := YouTubeMetadataExtractor.new_video_ids all_video_ids
                    existing_video_ids) in Hrun.
      destruct (extractor_fetch_batches_requests srv ids
                  (Py.range_step (length ids)
                     YouTubeMetadataExtractor.batch_size) s1 [])
        as (new & Hnew & Hin).
      injection Hrun as Hrun. rewrite Hrun in Hnew. cbn [snd] in Hnew.
      exists new. rewrite <- Hgather. split; [done |].
      intros batch_ids video_id Hb Hv.
      by apply (new_video_ids_spec all_video_ids), (Hin batch_ids).
    + injection Hrun as <- <-. exists [].
      rewrite Hgather. split; [by rewrite app_nil_r | by intros ? ? ?%elem_of_nil].
    + injection Hrun as <- <-. exists [].
      rewrite Hgather. split; [by rewrite app_nil_r | by intros ? ? ?%elem_of_nil].
  - cbv zeta. split; [by vm_compute | split; by vm_compute].
Qed.

Lemma known_ids_are_not_requested_witness :
  let known : option (list (string * Pandas.csv)) :=
    Some [("metadata_1.csv",
           {| Pandas.header := ["Video ID"; "Title"];
              Pandas.lines := [["b"; "seen before"]] |})] in
  let run_ :=
    Vdata.process_url (fun _ => None) (Detail.example_videos_list [])
      (fun _ => Some ["a"; "b"; "c"]) (fun _ => None) known Vdata.start
      "https://www.youtube.com/playlist?list=PL" in
  exists new,
    requests (Vdata.trace run_.2) = requests (Vdata.trace Vdata.start) ++ new
    /\ forall batch_ids video_id,
         batch_ids ∈ new -> video_id ∈ batch_ids ->
         video_id ∉ (list_to_set ["b"] : gset string).
Proof.
  intros known run_.
  eapply (proj1 known_ids_are_not_requested (fun _ => None)
            (Detail.example_videos_list [])
            (fun _ => Some ["a"; "b"; "c"]) (fun _ => None) known
            Vdata.start run_.2
            "https://www.youtube.com/playlist?list=PL" run_.1).
  - apply surjective_pairing.
  - vm_compute. reflexivity.
Defined.



End Incremental.

(** * Further properties of the scripts *)

(** ** Splitting and searching *)

Section Splitting.

Import Py Reference.

Lemma rev_string_append (acc s : string) :
  rev_string acc s = rev_string EmptyString s +:+ acc.
Proof.
  revert acc. induction s as [|a s IH]; intros acc; simpl; [done |].
  rewrite (IH (String a acc)), (IH (String a EmptyString)).
  by rewrite append_assoc.
Qed.

Lemma split_aux_nonempty (sep : string) (skip : nat) (cur s : string) :
  exists x l, split_aux sep skip cur s = x :: l.
Proof.
  revert skip cur. induction s as [|a s IH]; intros skip cur;
    cbn [split_aux]; [by eauto |].
  destruct skip as [|k]; [| apply IH].
  destruct (startswith sep (String a s)); [by eauto | apply IH].
Qed.

Lemma startswith_char (c a : ascii) (s : string) :
  startswith (String c EmptyString) (String a s) = Ascii.eqb c a.
Proof. simpl. by rewrite andb_true_r. Qed.

(** The last piece of a split at a character is the text after the last
    occurrence of the character. *)
Lemma split_char_last (c : ascii) (cur s : string) :
  last (split_aux (String c EmptyString) 0 cur s)
  = Some (if contains (String c EmptyString) s then after_last c s
          else rev_string EmptyString cur +:+ s).
Proof.
  revert cur. induction s as [|a s IH]; intros cur.
  - simpl. by rewrite append_empty_r.
  - cbn [split_aux contains after_last]. rewrite startswith_char.
    cbn [String.length Nat.sub].
    destruct (Ascii.eqb_spec c a) as [<-|Hne].
    + rewrite orb_true_l. rewrite last_cons, IH.
      rewrite Ascii.eqb_refl.
      by destruct (contains (String c EmptyString) s).
    + rewrite orb_false_l, IH.
      destruct (contains (String c EmptyString) s); [done |].
      destruct (Ascii.eqb_spec a c) as [->|_]; [done |].
      f_equal. cbn [rev_string].
      rewrite (rev_string_append (String a EmptyString)).
      by rewrite append_assoc.
Qed.

Lemma after_last_spec (c : ascii) (s : string) :
  contains (String c EmptyString) (after_last c s) = false
  /\ exists before, s = before +:+ after_last c s.
Proof.
  induction s as [|a s [IHno [before IHeq]]]; [by split; [| exists EmptyString] |].
  cbn [after_last].
  destruct (contains (String c EmptyString) s) eqn:Hin.
  - split; [done |]. exists (String a before). by rewrite append_cons, <- IHeq.
  - destruct (Ascii.eqb_spec a c) as [->|Hne].
    + split; [done |]. by exists (String c EmptyString).
    + split; [| by exists EmptyString].
      cbn [contains]. rewrite startswith_char, Hin.
      by destruct (Ascii.eqb_spec c a) as [->|].
Qed.

Lemma after_last_none (c : ascii) (s : string) :
  contains (String c EmptyString) s = false -> after_last c s = s.
Proof.
  destruct s as [|a s]; [done |]. cbn [contains after_last].
  rewrite startswith_char. intros [Ha ->]%orb_false_iff.
  by destruct (Ascii.eqb_spec a c) as [->|]; [rewrite Ascii.eqb_refl in Ha |].
Qed.

Lemma split_char_last_item (c : ascii) (s : string) :
  last_item (split (String c EmptyString) s) = Some (after_last c s).
Proof.
  unfold last_item, split. rewrite split_char_last.
  destruct (contains (String c EmptyString) s) eqn:Hin; [done |].
  by rewrite append_nil, after_last_none.
Qed.

(** A separator that occurs cuts the string in two pieces at least. *)
Lemma split_aux_two (c : ascii) (sep' cur s : string) :
  contains (String c sep') s = true ->
  exists x y l, split_aux (String c sep') 0 cur s = x :: y :: l.
Proof.
  revert cur. induction s as [|a s IH]; intros cur; [done |].
  cbn [contains split_aux].
  destruct (startswith (String c sep') (String a s)) eqn:Hstart.
  - intros _.
    destruct (split_aux_nonempty (String c sep')
                (String.length (String c sep') - 1) EmptyString s)
      as (y & l & ->).
    by eauto.
  - rewrite orb_false_l. apply IH.
Qed.

Lemma startswith_contains (p s : string) :
  startswith p s = true -> contains p s = true.
Proof. intros Hp. destruct s; simpl in *; by rewrite Hp. Qed.

Lemma contains_cons (p : string) (a : ascii) (s : string) :
  contains p s = true -> contains p (String a s) = true.
Proof. intros Hp. cbn [contains]. rewrite Hp. apply orb_true_r. Qed.

(** A string that holds [p] followed by [q] holds [q]. *)
Lemma contains_suffix (p q s : string) :
  contains (p +:+ q) s = true -> contains q s = true.
Proof.
  assert (Hstart : forall p s, startswith (p +:+ q) s = true ->
                               contains q s = true).
  { clear p s. induction p as [|a p IH]; intros s.
    - rewrite append_nil. apply startswith_contains.
    - rewrite append_cons. destruct s as [|b s]; [done |].
      cbn [startswith]. intros [_ Hp]%andb_true_iff.
      by apply contains_cons, IH. }
  induction s as [|a s IH]; intros H; cbn [contains] in H.
  - rewrite orb_false_r in H. by apply (Hstart p).
  - apply orb_true_iff in H as [Hp|Hp];
      [by apply (Hstart p) | by apply contains_cons, IH].
Qed.

Lemma span_all_in (cls : ascii -> bool) (s run rest : string) :
  span cls s = (run, rest) -> all_in cls run = true.
Proof.
  revert run rest. induction s as [|c s IH]; simpl; intros run rest H.
  - by inversion H.
  - destruct (cls c) eqn:Hc.
    + destruct (span cls s) as [run' rest'] eqn:Hs.
      inversion H; subst. simpl. rewrite Hc. simpl. by eapply IH.
    + by inversion H.
Qed.

(** The group of a search is a non-empty run of the class. *)
Lemma re_search_group (lits : list string) (cls : ascii -> bool)
    (s g : string) :
  re_search lits cls s = Some g ->
  g <> EmptyString /\ all_in cls g = true.
Proof.
  assert (Halts : forall s, match_alts lits cls s = Some g ->
                            g <> EmptyString /\ all_in cls g = true).
  { clear s. intros s. induction lits as [|lit lits IH]; [done |].
    cbn [match_alts]. unfold match_lit_class.
    destruct (strip_prefix lit s) as [rest|]; [| apply IH].
    destruct (span cls rest) as [[|c run] tl] eqn:Hspan; [apply IH |].
    intros [= <-]. split; [done | by eapply span_all_in]. }
  induction s as [|a s IH]; cbn [re_search].
  - destruct (match_alts lits cls EmptyString) eqn:Hm; [| done].
    intros [= <-]. by eapply Halts.
  - destruct (match_alts lits cls (String a s)) eqn:Hm; [| apply IH].
    intros [= <-]. by eapply Halts.
Qed.

End Splitting.

(** ** What the classifiers return *)

Section Identifiers.

Import Py Reference.

(** Every string that holds [youtu.be] is classified by [parse_url] as a
    video, and the identifier is whatever follows the last slash of the
    string (the whole string when it has no slash), a query string
    included. *)
Theorem parse_url_short_link (url : string) :
  contains "youtu.be" url = true ->
  YouTubeMetadataExtractor.parse_url url
  = Some (YouTubeMetadataExtractor.Video (after_last "/" url))
  /\ contains "/" (after_last "/" url) = false
  /\ exists before, url = before +:+ after_last "/" url.
Proof.
  intros Hshort. split; [| apply after_last_spec].
  unfold YouTubeMetadataExtractor.parse_url,
    YouTubeMetadataExtractor.parse_video_url.
  rewrite Hshort, orb_true_r.
  by rewrite (split_char_last_item "/").
Qed.

Lemma parse_url_short_link_witness :
  YouTubeMetadataExtractor.parse_url "https://youtu.be/abc123?t=5"
  = Some (YouTubeMetadataExtractor.Video "abc123?t=5").
Proof.
  apply (proj1 (parse_url_short_link "https://youtu.be/abc123?t=5"
                  eq_refl)).
Defined.

Lemma piece_first (sep s : string) :
  exists x, VdataOld.piece 0 sep s = Some x.
Proof.
  unfold VdataOld.piece, item, split.
  destruct (split_aux_nonempty sep 0 EmptyString s) as (x & l & ->).
  by exists x.
Qed.

Lemma piece_second (c : ascii) (sep' s : string) :
  contains (String c sep') s = true ->
  exists y, VdataOld.piece 1 (String c sep') s = Some y.
Proof.
  intros Hin. unfold VdataOld.piece, item, split.
  destruct (split_aux_two c sep' EmptyString s Hin) as (x & y & l & ->).
  by exists y.
Qed.

(** The old classifier never indexes a split out of range: it returns a
    pair for every string. *)
Theorem old_extract_identifier_total (url : string) :
  exists r, VdataOld.extract_identifier url = Some r.
Proof.
  unfold VdataOld.extract_identifier.
  destruct (contains "playlist?list=" url) eqn:H1.
  { apply (contains_suffix "playlist?" "list=") in H1.
    destruct (piece_second _ _ _ H1) as [y ->]. by eexists. }
  destruct (contains "watch?v=" url) eqn:H2.
  { destruct (piece_second _ _ _ H2) as [y ->].
    destruct (piece_first "&" y) as [x Hx].
    cbn [mbind option_bind]. rewrite Hx. by eexists. }
  destruct (contains "youtu.be/" url) eqn:H3.
  { destruct (piece_second _ _ _ H3) as [y ->].
    destruct (piece_first "?" y) as [x Hx].
    cbn [mbind option_bind]. rewrite Hx. by eexists. }
  destruct (contains "shorts/" url) eqn:H4.
  { destruct (piece_second _ _ _ H4) as [y ->].
    destruct (piece_first "?" y) as [x Hx].
    cbn [mbind option_bind]. rewrite Hx. by eexists. }
  destruct (contains "/channel/" url) eqn:H5.
  { destruct (piece_second _ _ _ H5) as [y ->]. by eexists. }
  destruct (contains "@" url) eqn:H6.
  { destruct (piece_second _ _ _ H6) as [y ->]. by eexists. }
  by eexists.
Qed.

(** An identifier that [extract_identifier] of [vdata.py] returns is not
    empty, its type is one of the four, and: a video identifier is made
    of letters, digits, [_] and [-] only, a playlist identifier holds no
    [&], and a channel identifier or a handle holds no slash. *)
Theorem extract_identifier_shape (url i t : string) :
  Vdata.extract_identifier url = (Some i, Some t) ->
  i <> EmptyString
  /\ (t = "playlist" /\ all_in (is_not "&") i = true
      \/ t = "video" /\ all_in is_id_char i = true
      \/ (t = "channel_id" \/ t = "handle")
         /\ all_in (is_not "/") i = true).
Proof.
  unfold Vdata.extract_identifier.
  destruct (re_search ["playlist?list="] (is_not "&") url) as [g|] eqn:H1.
  { intros [= <- <-]. apply re_search_group in H1 as [? ?]. auto. }
  destruct (re_search ["watch?v="; "/v/"] is_id_char url) as [g|] eqn:H2.
  { intros [= <- <-]. apply re_search_group in H2 as [? ?]. auto. }
  destruct (re_search ["/channel/"] (is_not "/") url) as [g|] eqn:H3.
  { intros [= <- <-]. apply re_search_group in H3 as [? ?]. auto 6. }
  destruct (re_search ["@"] (is_not "/") url) as [g|] eqn:H4; [| done].
  intros [= <- <-]. apply re_search_group in H4 as [? ?]. auto 6.
Qed.

Lemma extract_identifier_shape_witness :
  "PL9" <> EmptyString
  /\ ("playlist" = "playlist" /\ all_in (is_not "&") "PL9" = true
      \/ "playlist" = "video" /\ all_in is_id_char "PL9" = true
      \/ ("playlist" = "channel_id" \/ "playlist" = "handle")
         /\ all_in (is_not "/") "PL9" = true).
Proof.
  apply (extract_identifier_shape
           "https://www.youtube.com/playlist?list=PL9&index=2").
  reflexivity.
Defined.

(** A playlist identifier that [parse_url] returns, and a video
    identifier that it takes from a link without [youtu.be], is a
    non-empty run of letters, digits, [_] and [-]. *)
Theorem parse_url_identifier_shape (url i : string) :
  YouTubeMetadataExtractor.parse_url url
  = Some (YouTubeMetadataExtractor.Playlist i)
  \/ (YouTubeMetadataExtractor.parse_url url
      = Some (YouTubeMetadataExtractor.Video i)
      /\ contains "youtu.be" url = false) ->
  i <> EmptyString /\ all_in is_id_char i = true.
Proof.
  unfold YouTubeMetadataExtractor.parse_url,
    YouTubeMetadataExtractor.parse_video_url,
    YouTubeMetadataExtractor.parse_playlist_url,
    YouTubeMetadataExtractor.parse_channel_url.
  destruct (contains "youtu.be" url) eqn:Hshort.
  - rewrite orb_true_r.
    destruct (last_item _); simpl; by intros [[=]|[_ [=]]].
  - rewrite orb_false_r.
    destruct (contains "youtube.com/watch" url).
    { destruct (re_search ["?v="; "&v="] is_id_char url) eqn:Hv;
        simpl; intros [[=]|[[= <-] _]].
      by eapply re_search_group. }
    destruct (contains "youtube.com/playlist" url).
    { destruct (re_search ["list="] is_id_char url) eqn:Hl;
        simpl; intros [[= <-]|[[=] _]].
      by eapply re_search_group. }
    destruct (_ || _); [| by intros [[=]|[[=] _]]].
    destruct (contains "/channel/" url);
      [by destruct (last_item _); simpl; intros [[=]|[[=] _]] |].
    destruct (contains "/@" url);
      [by destruct (last_item _); simpl; intros [[=]|[[=] _]] |].
    by intros [[=]|[[=] _]].
Qed.

Lemma parse_url_identifier_shape_witness :
  "a_b-9" <> EmptyString /\ all_in is_id_char "a_b-9" = true.
Proof.
  apply (parse_url_identifier_shape
           "https://www.youtube.com/watch?t=1&v=a_b-9#x").
  right. split; reflexivity.
Defined.

End Identifiers.

(** ** Credentials *)

Section Credentials.

Import Quota.

(** The wait of [exponential_backoff] is between 1 and 60 seconds, never
    shrinks as the retries grow, doubles up to the fifth retry and is 60
    from the sixth on. *)
Theorem exponential_backoff_bounds (retries retries' : nat) :
  1 <= ExtractorStore.exponential_backoff retries <= 60
  /\ ((retries <= retries')%nat ->
      ExtractorStore.exponential_backoff retries
      <= ExtractorStore.exponential_backoff retries')
  /\ ((retries <= 5)%nat ->
      ExtractorStore.exponential_backoff retries = 2 ^ Z.of_nat retries)
  /\ ((6 <= retries)%nat -> ExtractorStore.exponential_backoff retries = 60).
Proof.
  unfold ExtractorStore.exponential_backoff.
  assert (Hpos : forall n : nat, 1 <= 2 ^ Z.of_nat n).
  { intros n. change 1 with (2 ^ 0). apply Z.pow_le_mono_r; lia. }
  pose proof (Hpos retries). repeat split.
  - lia.
  - lia.
  - intros Hle.
    assert (2 ^ Z.of_nat retries <= 2 ^ Z.of_nat retries')
      by (apply Z.pow_le_mono_r; lia).
    lia.
  - intros Hle.
    assert (2 ^ Z.of_nat retries <= 2 ^ 5)
      by (apply Z.pow_le_mono_r; lia).
    change (2 ^ 5) with 32 in *. lia.
  - intros Hle.
    assert (2 ^ 6 <= 2 ^ Z.of_nat retries)
      by (apply Z.pow_le_mono_r; lia).
    change (2 ^ 6) with 64 in *. lia.
Qed.

Lemma exponential_backoff_bounds_witness :
  ExtractorStore.exponential_backoff 3 <= ExtractorStore.exponential_backoff 9
  /\ ExtractorStore.exponential_backoff 3 = 2 ^ Z.of_nat 3
  /\ ExtractorStore.exponential_backoff 9 = 60.
Proof.
  split; [| split].
  - apply (proj1 (proj2 (exponential_backoff_bounds 3 9))). lia.
  - apply (proj1 (proj2 (proj2 (exponential_backoff_bounds 3 9)))). lia.
  - apply (proj2 (proj2 (proj2 (exponential_backoff_bounds 9 9)))). lia.
Defined.

(** A rotation of the class that does not exit leaves the pool as it
    was and the cursor on a credential of the pool other than the first;
    from a cursor inside the pool it moves to the next credential. *)
Theorem switch_api_key_cursor (self self' : YouTubeMetadataExtractor.extractor) :
  YouTubeMetadataExtractor.switch_api_key self = Done self' ->
  YouTubeMetadataExtractor.api_keys self'
  = YouTubeMetadataExtractor.api_keys self
  /\ (0 < YouTubeMetadataExtractor.current_key_index self'
      < length (YouTubeMetadataExtractor.api_keys self))%nat
  /\ ((YouTubeMetadataExtractor.current_key_index self
       < length (YouTubeMetadataExtractor.api_keys self))%nat ->
      YouTubeMetadataExtractor.current_key_index self'
      = S (YouTubeMetadataExtractor.current_key_index self)).
Proof.
  unfold YouTubeMetadataExtractor.switch_api_key.
  destruct (length (YouTubeMetadataExtractor.api_keys self)) as [|n] eqn:Hn;
    [done |].
  set (i := YouTubeMetadataExtractor.current_key_index self).
  pose proof (Nat.mod_upper_bound (i + 1) (S n) ltac:(lia)) as Hup.
  destruct (Nat.eqb_spec ((i + 1) mod S n) 0) as [|Hnz]; [done |].
  intros Heq.
  assert (Hself : self'
                  = {| YouTubeMetadataExtractor.api_keys :=
                         YouTubeMetadataExtractor.api_keys self;
                       YouTubeMetadataExtractor.current_key_index :=
                         ((i + 1) mod S n)%nat |}) by congruence.
  rewrite Hself.
  cbn [YouTubeMetadataExtractor.api_keys
       YouTubeMetadataExtractor.current_key_index].
  split; [done |]. split; [lia |].
  intros Hin.
  destruct (Nat.eq_dec (i + 1)%nat (S n)) as [Hlast|Hne].
  - rewrite Hlast, Nat.Div0.mod_same in Hnz. lia.
  - rewrite Nat.mod_small by lia. lia.
Qed.

Lemma switch_api_key_cursor_witness :
  YouTubeMetadataExtractor.api_keys
    {| YouTubeMetadataExtractor.api_keys := ["k1"; "k2"; "k3"];
       YouTubeMetadataExtractor.current_key_index := 2 |}
  = ["k1"; "k2"; "k3"]
  /\ (0 < 2 < 3)%nat.
Proof.
  pose proof (switch_api_key_cursor
                {| YouTubeMetadataExtractor.api_keys := ["k1"; "k2"; "k3"];
                   YouTubeMetadataExtractor.current_key_index := 1 |}
                {| YouTubeMetadataExtractor.api_keys := ["k1"; "k2"; "k3"];
                   YouTubeMetadataExtractor.current_key_index := 2 |}
                eq_refl) as (Hkeys & Hrange & _).
  exact (conj Hkeys Hrange).
Defined.

Section WithStrip.

Variable strip : string -> string.

(** The pool of [vdata.py] is never empty, whatever the key file holds
    and also without a key file, and no key read from the file is the
    empty string; so no run of rotations raises, and the cursor stays
    inside the pool. *)
Theorem vdata_pool_never_empty (api_keys_txt : option (list string))
    (API_KEY : option string) (k : nat) :
  let keys := VdataService.API_KEYS_of strip api_keys_txt API_KEY in
  keys <> []
  /\ (forall key, key ∈ VdataService.load_api_keys strip api_keys_txt ->
                  key <> EmptyString)
  /\ exists g,
       responses Vdata.switch_api_key k (Vdata.init keys) 0 = (k, Done g)
       /\ Vdata.API_KEYS g = keys
       /\ (Vdata.current_key_index g < length keys)%nat.
Proof.
  intros keys.
  assert (Hne : keys <> []).
  { unfold keys, VdataService.API_KEYS_of.
    by destruct (VdataService.load_api_keys strip api_keys_txt). }
  split; [done |]. split.
  - unfold VdataService.load_api_keys. destruct api_keys_txt as [lines_|];
      [| by intros key ?%elem_of_nil].
    intros key (line & -> & Hline)%list_elem_of_fmap.
    by apply list_elem_of_filter in Hline as [Hline _].
  - assert (0 < length keys)%nat by (destruct keys; simpl; [done | lia]).
    unfold Vdata.init. rewrite vdata_rotations by done.
    eexists. split; [done |]. split; [done |].
    cbn [Vdata.current_key_index]. by apply Nat.mod_upper_bound; lia.
Qed.

End WithStrip.

(** [build_youtube_service] comes back with the first credential, from
    the cursor on and cyclically, with which [build] succeeds, after one
    call of [build] for each credential tried. *)
Theorem build_youtube_service_first_working
    (build : nat -> option string -> bool) (keys : list (option string))
    (j : nat) :
  forall (i attempts fuel : nat) (key : option string),
    (i < length keys)%nat ->
    (forall j' key', (j' < j)%nat ->
       keys !! ((i + j') mod length keys)%nat = Some key' ->
       build (attempts + j')%nat key' = false) ->
    keys !! ((i + j) mod length keys)%nat = Some key ->
    build (attempts + j)%nat key = true ->
    (j < fuel)%nat ->
    VdataService.build_youtube_service fuel build attempts
      {| Vdata.API_KEYS := keys; Vdata.current_key_index := i |}
    = Some (Done ({| Vdata.API_KEYS := keys;
                     Vdata.current_key_index :=
                       ((i + j) mod length keys)%nat |},
                  S (attempts + j))).
Proof.
  induction j as [|j IH]; intros i attempts fuel key Hi Hbad Hkey Hgood Hfuel;
    (destruct fuel as [|fuel]; [lia |]);
    cbn [VdataService.build_youtube_service Vdata.API_KEYS
         Vdata.current_key_index].
  - rewrite !Nat.add_0_r in Hkey, Hgood |- *.
    rewrite Nat.mod_small in Hkey |- * by done.
    rewrite Hkey, Hgood. by rewrite ?Nat.add_0_r.
  - destruct (lookup_lt_is_Some_2 keys i Hi) as [key0 Hkey0].
    rewrite Hkey0.
    rewrite <- (Nat.add_0_r attempts) at 1.
    rewrite (Hbad 0%nat key0) by
      (lia || by rewrite Nat.add_0_r, Nat.mod_small).
    rewrite vdata_switch by (by destruct keys).
    assert (Hshift : forall n, (((i + 1) mod length keys + n) mod length keys
                               = (i + S n) mod length keys)%nat).
    { intros n. rewrite Nat.Div0.add_mod_idemp_l. f_equal. lia. }
    rewrite (IH ((i + 1) mod length keys)%nat (S attempts) fuel key).
    + rewrite Hshift. do 4 f_equal. lia.
    + apply Nat.mod_upper_bound. lia.
    + intros j' key' Hj' Hlook. rewrite Hshift in Hlook.
      replace (S attempts + j')%nat with (attempts + S j')%nat by lia.
      apply Hbad; [lia | done].
    + by rewrite Hshift.
    + by replace (S attempts + j)%nat with (attempts + S j)%nat by lia.
    + lia.
Qed.

Lemma build_youtube_service_first_working_witness :
  VdataService.build_youtube_service 5
    (fun _ key => bool_decide (key = Some "k1")) 0
    {| Vdata.API_KEYS := [Some "k1"; Some "k2"; Some "k3"];
       Vdata.current_key_index := 1 |}
  = Some (Done ({| Vdata.API_KEYS := [Some "k1"; Some "k2"; Some "k3"];
                   Vdata.current_key_index := 0 |}, 3%nat)).
Proof.
  apply (build_youtube_service_first_working
           (fun _ key => bool_decide (key = Some "k1"))
           [Some "k1"; Some "k2"; Some "k3"] 2 1 0 5 (Some "k1")).
  - simpl. lia.
  - intros [|[|j']] key' Hj'; [| | lia]; by intros [= <-].
  - reflexivity.
  - reflexivity.
  - lia.
Defined.

(** When [build] succeeds with no credential of the pool,
    [build_youtube_service] does not come back with a service, whatever
    the number of its calls on itself: each call rotates and calls the
    function again, and nothing in the function bounds the recursion
    (the recursion limit of the interpreter does). *)
Theorem build_youtube_service_never_returns
    (build : nat -> option string -> bool) (keys : list (option string))
    (fuel : nat) :
  forall (i attempts : nat),
    (i < length keys)%nat ->
    (forall n key, key ∈ keys -> build n key = false) ->
    VdataService.build_youtube_service fuel build attempts
      {| Vdata.API_KEYS := keys; Vdata.current_key_index := i |}
    = None.
Proof.
  induction fuel as [|fuel IH]; intros i attempts Hi Hbad; [done |].
  cbn [VdataService.build_youtube_service Vdata.API_KEYS
       Vdata.current_key_index].
  destruct (lookup_lt_is_Some_2 keys i Hi) as [key Hkey].
  rewrite Hkey, (Hbad attempts key) by (by eapply list_elem_of_lookup_2).
  rewrite vdata_switch by (by destruct keys).
  apply IH; [| done].
  apply Nat.mod_upper_bound. lia.
Qed.

Lemma build_youtube_service_never_returns_witness :
  VdataService.build_youtube_service 1000 (fun _ _ => false) 0
    {| Vdata.API_KEYS := [Some "k1"; Some "k2"];
       Vdata.current_key_index := 0 |}
  = None.
Proof.
  apply build_youtube_service_never_returns; [simpl; lia | done].
Defined.

End Credentials.

(** ** More on the traversals *)

Section Traversals.

Import Api YouTubeMetadataExtractor Reference.

(** The count of retries that [fetch_videos_from_playlist] keeps never
    ends a traversal: with the cursor inside the pool, and no more
    retries counted than the cursor has advanced, the loop does what the
    loop without the count does. Exhaustion is signaled by the rotation
    alone. *)
Theorem fetch_loop_count_never_fires (srv : server) (playlist_id : string)
    (keys : list string) (fuel : nat) :
  forall (i c retries : nat) (rq : list (list string))
    (video_ids : list string) (token : option string),
    (retries <= i < length keys)%nat ->
    fetch_loop fuel srv playlist_id
      {| self_ := {| api_keys := keys; current_key_index := i |};
         calls := c; requested := rq |} video_ids token retries
    = fetch_loop_uncounted fuel srv playlist_id
        {| self_ := {| api_keys := keys; current_key_index := i |};
           calls := c; requested := rq |} video_ids token.
Proof.
  induction fuel as [|fuel IH]; intros i c retries rq video_ids token Hi;
    [done |].
  cbn [fetch_loop fetch_loop_uncounted calls self_].
  destruct (playlistItems_list srv c playlist_id token)
    as [response|status content].
  - destruct (falsy (nextPageToken response)); [done |].
    unfold tick. cbn [self_ calls requested]. by apply IH.
  - destruct (quota_exceeded status content); [| done].
    destruct (Nat.eq_dec (i + 1)%nat (length keys)) as [Hlast|Hmore].
    + by rewrite extractor_switch_wrap.
    + rewrite extractor_switch_next by lia. cbn [api_keys].
      destruct (Nat.ltb_spec (length keys) (S retries)) as [|_]; [lia |].
      unfold with_self, tick. cbn [self_ calls requested].
      apply IH. lia.
Qed.

Lemma fetch_loop_count_never_fires_witness :
  fetch_loop 9 (Playlist.example_server [true; false; true; true]) "PL"
    {| self_ := {| api_keys := ["k1"; "k2"; "k3"]; current_key_index := 0 |};
       calls := 0; requested := [] |} [] None 0
  = fetch_loop_uncounted 9
      (Playlist.example_server [true; false; true; true]) "PL"
      {| self_ := {| api_keys := ["k1"; "k2"; "k3"];
                     current_key_index := 0 |};
         calls := 0; requested := [] |} [] None.
Proof.
  apply fetch_loop_count_never_fires. simpl. lia.
Defined.



(** The lookup of the uploads playlist of a channel is asked again on
    the next credential each time the quota is exceeded; once it
    answers, the traversal of the channel is the traversal of that
    playlist. *)
Theorem fetch_videos_from_channel_delegates (srv : server)
    (channel_id uploads : string) (keys : list string) (f : nat) :
  forall (fuel i c : nat) (rq : list (list string)),
    (forall j, (j < f)%nat ->
       exists status content,
         channels_list srv (c + j) channel_id = HttpError status content
         /\ quota_exceeded status content = true) ->
    channels_list srv (c + f) channel_id = Ok (Some uploads) ->
    (i + f < length keys)%nat ->
    fetch_videos_from_channel (S (f + fuel)) srv
      {| self_ := {| api_keys := keys; current_key_index := i |};
         calls := c; requested := rq |} channel_id
    = fetch_videos_from_playlist fuel srv
        {| self_ := {| api_keys := keys;
                       current_key_index := (i + f)%nat |};
           calls := S (c + f); requested := rq |} uploads.
Proof.
  induction f as [|f IH]; intros fuel i c rq Hquota Hok Hkeys;
    [change (S (0 + fuel)) with (S fuel)
    | change (S (S f + fuel)) with (S (S (f + fuel)));
      remember (S (f + fuel)) as fuel1 eqn:Hfuel1];
    cbn [fetch_videos_from_channel calls self_].
  - rewrite Nat.add_0_r in Hok. rewrite Hok.
    unfold tick. cbn [self_ calls requested]. by rewrite !Nat.add_0_r.
  - destruct (Hquota 0%nat ltac:(lia)) as (status & content & Hcall & Hq).
    rewrite Nat.add_0_r in Hcall. rewrite Hcall, Hq.
    rewrite extractor_switch_next by lia.
    unfold with_self, tick. cbn [self_ calls requested].
    subst fuel1. rewrite (IH fuel (i + 1)%nat (S c) rq).
    + replace (i + 1 + f)%nat with (i + S f)%nat by lia.
      by replace (S c + f)%nat with (c + S f)%nat by lia.
    + intros j Hj. rewrite Nat.add_succ_comm. apply Hquota. lia.
    + by rewrite Nat.add_succ_comm.
    + lia.
Qed.

(** A link that is not classified, and the link of a video that is
    already known, costs no call of the API and adds no identifier; a
    list of such links is gathered without fuel. *)
Theorem gather_skips (fuel : nat) (srv : server) (existing : gset string)
    (s : session) (all_video_ids : list string) (urls : list string) :
  Forall (fun url =>
            parse_url url = None
            \/ exists video_id,
                 parse_url url = Some (Video video_id)
                 /\ video_id ∈ existing) urls ->
  gather_video_ids fuel srv existing s all_video_ids urls
  = Some (Done all_video_ids, s).
Proof.
  induction 1 as [|url urls Hurl _ IH]; cbn [gather_video_ids]; [done |].
  destruct Hurl as [->|(video_id & -> & Hknown)]; [done |].
  by rewrite bool_decide_eq_false_2 by (by intros Hnot).
Qed.

End Traversals.

(** ** More on the detail fetch *)

Section Batches.

Import Api Reference.

Lemma slices_take {A : Type} (l : list A) (step m : nat) :
  concat ((fun i => Py.slice l i (i + step))
            <$> ((fun k => k * step)%nat <$> seq 0 m))
  = take (m * step) l.
Proof.
  induction m as [|m IH]; [done |].
  rewrite seq_S, !fmap_app, concat_app, IH. cbn [fmap list_fmap concat].
  rewrite app_nil_r. unfold Py.slice.
  replace (0 + m * step + step - (0 + m * step))%nat with step by lia.
  rewrite Nat.add_0_l, take_take_drop. f_equal. lia.
Qed.

Lemma range_step_covers (n step : nat) :
  (0 < step)%nat -> (n <= (n + step - 1) / step * step)%nat.
Proof.
  intros Hstep.
  pose proof (Nat.div_mod_eq (n + step - 1) step) as Hdiv.
  pose proof (Nat.mod_upper_bound (n + step - 1) step ltac:(lia)) as Hmod.
  nia.
Qed.

(** The batches of the loops are the identifiers cut in pieces. *)
Lemma batches_concat {A : Type} (l : list A) (step : nat) :
  (0 < step)%nat ->
  concat ((fun i => Py.slice l i (i + step))
            <$> Py.range_step (length l) step)
  = l.
Proof.
  intros Hstep. unfold Py.range_step.
  rewrite slices_take. apply take_ge. by apply range_step_covers.
Qed.

Lemma batches_sizes {A : Type} (l : list A) (step : nat) :
  (0 < step)%nat ->
  Forall (fun batch => 1 <= length batch <= step)%nat
    ((fun i => Py.slice l i (i + step)) <$> Py.range_step (length l) step).
Proof.
  intros Hstep. unfold Py.range_step.
  rewrite Forall_fmap, Forall_fmap. apply Forall_forall.
  intros k Hk. apply elem_of_seq in Hk. cbn [compose].
  unfold Py.slice.
  rewrite length_take, length_drop.
  replace (k * step + step - k * step)%nat with step by lia.
  pose proof (Nat.div_mod_eq (length l + step - 1) step) as Hdiv.
  pose proof (Nat.mod_upper_bound (length l + step - 1) step ltac:(lia))
    as Hmod.
  nia.
Qed.

(** The requests of the loop of the class, when it runs to its end. *)
Lemma extractor_fetch_batches_log (srv : YouTubeMetadataExtractor.server)
    (all_video_ids : list string) (offsets : list nat) :
  forall (s s' : YouTubeMetadataExtractor.session)
    (metadata_ result : list YouTubeMetadataExtractor.metadata),
    YouTubeMetadataExtractor.fetch_batches srv s all_video_ids metadata_
      offsets = (Done result, s') ->
    YouTubeMetadataExtractor.requested s'
    = YouTubeMetadataExtractor.requested s
      ++ ((fun i => Py.slice all_video_ids i
                      (i + YouTubeMetadataExtractor.batch_size))
            <$> offsets).
Proof.
  induction offsets as [|i offsets IH]; intros s s' metadata_ result;
    cbn [YouTubeMetadataExtractor.fetch_batches].
  - intros [= _ <-]. by rewrite app_nil_r.
  - set (batch_ids := Py.slice all_video_ids i
                        (i + YouTubeMetadataExtractor.batch_size)).
    assert (Hone : forall r s1,
               YouTubeMetadataExtractor.fetch_video_metadata_batch srv s
                 batch_ids = (r, s1) ->
               YouTubeMetadataExtractor.requested s1
               = YouTubeMetadataExtractor.requested s ++ [batch_ids]).
    { unfold YouTubeMetadataExtractor.fetch_video_metadata_batch.
      intros r s1.
      destruct (YouTubeMetadataExtractor.videos_list srv _ _);
        [by intros [= <- <-] |].
      destruct (YouTubeMetadataExtractor.quota_exceeded _ _);
        [| by intros [= <- <-]].
      destruct (YouTubeMetadataExtractor.switch_api_key _);
        by intros [= <- <-]. }
    destruct (YouTubeMetadataExtractor.fetch_video_metadata_batch srv s
                batch_ids) as [[batch| |] s1] eqn:Hfetch; [| done | done].
    intros Hrest. rewrite (IH _ _ _ _ Hrest), (Hone _ _ eq_refl).
    by rewrite <- app_assoc.
Qed.

(** When [process_urls] of the class runs to its end, the detail
    requests it sent hold the gathered identifiers that were not known,
    each once: no request is empty or holds more than 50 identifiers, and
    no identifier is in two requests or twice in one. *)
Theorem process_urls_requests_each_once {V : Type}
    (pd : Pandas.library V) (fuel : nat)
    (srv : YouTubeMetadataExtractor.server)
    (s s' : YouTubeMetadataExtractor.session) (urls : list string)
    (metadata_file : option Pandas.csv)
    (result : list YouTubeMetadataExtractor.metadata) :
  YouTubeMetadataExtractor.process_urls pd fuel srv s urls metadata_file
  = Some (Done result, s') ->
  exists (new : list (list string)) (existing : gset string)
    (all_video_ids : list string) (s1 : YouTubeMetadataExtractor.session),
    YouTubeMetadataExtractor.get_existing_video_ids pd metadata_file
    = Done existing
    /\ YouTubeMetadataExtractor.gather_video_ids fuel srv existing s [] urls
       = Some (Done all_video_ids, s1)
    /\ YouTubeMetadataExtractor.requested s'
       = YouTubeMetadataExtractor.requested s ++ new
    /\ concat new
       = YouTubeMetadataExtractor.new_video_ids all_video_ids existing
    /\ NoDup (concat new)
    /\ Forall (fun batch => 1 <= length batch <= 50)%nat new.
Proof.
  unfold YouTubeMetadataExtractor.process_urls.
  destruct (YouTubeMetadataExtractor.get_existing_video_ids pd
              metadata_file)
    as [existing| |] eqn:Hexisting; [| done | done].
  destruct (YouTubeMetadataExtractor.gather_video_ids fuel srv existing s
              [] urls) as [[[all_video_ids| |] s1]|] eqn:Hgather;
    [| done | done | done].
  intros [= Hrun].
  set (ids := YouTubeMetadataExtractor.new_video_ids all_video_ids existing)
    in *.
  apply extractor_fetch_batches_log in Hrun.
  exists ((fun i => Py.slice ids i (i + YouTubeMetadataExtractor.batch_size))
            <$> Py.range_step (length ids)
                  YouTubeMetadataExtractor.batch_size),
    existing, all_video_ids, s1.
  rewrite <- (gather_video_ids_requested _ _ _ _ _ _ _ _ Hgather).
  repeat split; try done.
  - apply batches_concat. unfold YouTubeMetadataExtractor.batch_size. lia.
  - rewrite batches_concat
      by (unfold YouTubeMetadataExtractor.batch_size; lia).
    apply NoDup_elements.
  - apply (batches_sizes ids YouTubeMetadataExtractor.batch_size).
    unfold YouTubeMetadataExtractor.batch_size. lia.
Qed.

(** [parse_duration] of the class never returns a negative number, so
    no record has a negative length. *)
Theorem parse_duration_nonnegative (text : option string)
    (item : video_item) :
  (forall n, YouTubeMetadataExtractor.parse_duration text = Done n -> 0 <= n)
  /\ (forall m,
        YouTubeMetadataExtractor.metadata_of_item item = Done m ->
        0 <= YouTubeMetadataExtractor.Length_Seconds m).
Proof.
  split; [apply parse_duration_returns_nonnegative |].
  intros m. unfold YouTubeMetadataExtractor.metadata_of_item.
  destruct (YouTubeMetadataExtractor.parse_duration (Some (duration item)))
    as [seconds| |] eqn:Hseconds; [| done | done].
  intros [= <-]. cbn [YouTubeMetadataExtractor.Length_Seconds].
  by eapply parse_duration_returns_nonnegative.
Qed.

(** The loop of [vdata.py] on one batch appends the records of one
    response at most, that of the first attempt that succeeds: a batch
    that is fetched again after failures is not recorded twice. *)
Theorem fetch_batch_appends_once (isodate_seconds : string -> option Z)
    (videos_list : nat -> list string -> option (list video_item))
    (retries : nat) (batch_ids : list string) (st : Vdata.run)
    (video_data : list Vdata.video_row) :
  let after :=
    Vdata.fetch_batch isodate_seconds videos_list retries batch_ids st
      video_data in
  (forall n, (Vdata.calls st <= n < Vdata.calls after.1 - 1)%nat ->
             videos_list n batch_ids = None)
  /\ (after.2 = video_data
      \/ exists response,
           videos_list (Vdata.calls after.1 - 1)%nat batch_ids
           = Some response
           /\ after.2
              = video_data
                ++ (Vdata.video_row_of_item isodate_seconds <$> response)).
Proof.
  revert st. induction retries as [|retries IH]; intros st;
    cbn [Vdata.fetch_batch].
  - cbn zeta. split; [intros n; cbn; lia | by left].
  - destruct (videos_list (Vdata.calls st) batch_ids) as [response|]
      eqn:Hcall.
    + cbn zeta. cbn [fst snd Vdata.executed Vdata.calls]. split.
      * intros n. lia.
      * right. exists response. split; [| done].
        rewrite <- Hcall. f_equal. lia.
    + assert (Hnext : forall st',
                 Vdata.calls st' = S (Vdata.calls st) ->
                 let after :=
                   Vdata.fetch_batch isodate_seconds videos_list retries
                     batch_ids st' video_data in
                 (forall n, (Vdata.calls st <= n
                             < Vdata.calls after.1 - 1)%nat ->
                            videos_list n batch_ids = None)
                 /\ (after.2 = video_data
                     \/ exists response,
                          videos_list (Vdata.calls after.1 - 1)%nat batch_ids
                          = Some response
                          /\ after.2
                             = video_data
                               ++ (Vdata.video_row_of_item isodate_seconds
                                     <$> response))).
      { intros st' Hst'. destruct (IH st') as [Hnone Hres].
        cbn zeta. split; [| done].
        intros n Hn.
        destruct (Nat.eq_dec n (Vdata.calls st)) as [->|Hne]; [done |].
        apply Hnone. lia. }
      destruct (0 <? retries)%nat; by apply Hnext.
Qed.

End Batches.

Lemma fetch_videos_from_channel_delegates_witness :
  let srv :=
    {| YouTubeMetadataExtractor.playlistItems_list := fun _ _ token =>
         YouTubeMetadataExtractor.Ok (Playlist.example_pages token);
       YouTubeMetadataExtractor.channels_list := fun n _ =>
         if (n <? 2)%nat
         then YouTubeMetadataExtractor.HttpError 403 "quotaExceeded"
         else YouTubeMetadataExtractor.Ok (Some "UU1");
       YouTubeMetadataExtractor.videos_list := fun _ _ =>
         YouTubeMetadataExtractor.Ok [] |} in
  YouTubeMetadataExtractor.fetch_videos_from_channel (S (2 + 4)) srv
    (YouTubeMetadataExtractor.start ["k1"; "k2"; "k3"]) "UC1"
  = YouTubeMetadataExtractor.fetch_videos_from_playlist 4 srv
      {| YouTubeMetadataExtractor.self_ :=
           {| YouTubeMetadataExtractor.api_keys := ["k1"; "k2"; "k3"];
              YouTubeMetadataExtractor.current_key_index := 0 + 2 |};
         YouTubeMetadataExtractor.calls := S (0 + 2);
         YouTubeMetadataExtractor.requested := [] |} "UU1".
Proof.
  intros srv.
  apply (fetch_videos_from_channel_delegates srv "UC1" "UU1"
           ["k1"; "k2"; "k3"] 2 4 0 0 []).
  - intros [|[|j]] Hj; [| | lia];
      by exists 403, "quotaExceeded".
  - reflexivity.
  - simpl. lia.
Defined.

Lemma gather_skips_witness :
  YouTubeMetadataExtractor.gather_video_ids 0 (Playlist.example_server [])
    {["seen"]} (YouTubeMetadataExtractor.start ["k1"]) ["v0"]
    ["not a link"; "https://youtu.be/seen"]
  = Some (Done ["v0"], YouTubeMetadataExtractor.start ["k1"]).
Proof.
  apply gather_skips.
  constructor; [by left |]. constructor; [| constructor].
  right. exists "seen". split; [reflexivity | set_solver].
Defined.

Lemma process_urls_requests_each_once_witness :
  exists (s' : YouTubeMetadataExtractor.session)
    (new : list (list string)),
    YouTubeMetadataExtractor.requested s' = [] ++ new
    /\ NoDup (concat new)
    /\ Forall (fun batch => 1 <= length batch <= 50)%nat new.
Proof.
  destruct (process_urls_requests_each_once Inference.pandas 9
              (Playlist.example_server [false; true])
              (YouTubeMetadataExtractor.start ["k1"; "k2"])
              (default (YouTubeMetadataExtractor.start [])
                 (snd <$> YouTubeMetadataExtractor.process_urls
                            Inference.pandas 9
                    (Playlist.example_server [false; true])
                    (YouTubeMetadataExtractor.start ["k1"; "k2"])
                    ["https://www.youtube.com/playlist?list=PL"]
                    (Some {| Pandas.header := ["Video ID"];
                             Pandas.lines := [["v3"]] |})))
              ["https://www.youtube.com/playlist?list=PL"]
              (Some {| Pandas.header := ["Video ID"];
                       Pandas.lines := [["v3"]] |}) [])
    as (new & existing & all_video_ids & s1 & _ & _ & Hlog & _ & Hnodup
        & Hsizes).
  - vm_compute. reflexivity.
  - eexists. exists new. by split.
Defined.

(** ** More on the stores *)

Section Stores.

Import Pandas Reference.

Lemma keep_first_sublist {A K : Type} `{EqDecision K} (key : A -> K)
    (seen : list K) (l : list A) :
  keep_first key seen l `sublist_of` l.
Proof.
  revert seen. induction l as [|x l IH]; intros seen; simpl; [done |].
  case_bool_decide; [by apply sublist_cons | by apply sublist_skip].
Qed.

Lemma keep_first_keys {A K : Type} `{EqDecision K} (key : A -> K)
    (seen : list K) (l : list A) (k : K) :
  k ∈ key <$> keep_first key seen l <-> k ∈ key <$> l /\ k ∉ seen.
Proof.
  revert seen. induction l as [|x l IH]; intros seen; cbn [keep_first].
  - rewrite fmap_nil.
    split; [by intros ?%elem_of_nil | by intros [?%elem_of_nil _]].
  - rewrite (fmap_cons key x l). case_bool_decide as Hx.
    + rewrite IH, elem_of_cons. split; [by intros [? ?]; auto |].
      intros [[->|?] ?]; [done | auto].
    + rewrite fmap_cons, !elem_of_cons, IH. split.
      * intros [->|[? Hnot]]; [by split; [left |] |].
        split; [by right |]. intros ?. apply Hnot. by right.
      * intros [[->|?] Hnot]; [by left |].
        destruct (decide (k = key x)) as [->|Hne]; [by left |].
        right. split; [done |]. by intros [?|?]%elem_of_cons.
Qed.

Lemma keep_first_NoDup {A K : Type} `{EqDecision K} (key : A -> K)
    (seen : list K) (l : list A) :
  NoDup (key <$> keep_first key seen l).
Proof.
  revert seen. induction l as [|x l IH]; intros seen; cbn [keep_first];
    [by apply NoDup_nil |].
  case_bool_decide as Hx; [apply IH |].
  rewrite fmap_cons. apply NoDup_cons. split; [| apply IH].
  rewrite keep_first_keys. intros [_ Hnot]. apply Hnot. by left.
Qed.

(** The element kept for a key is the first of the list with the key. *)
Lemma keep_first_is_first {A K : Type} `{EqDecision K} (key : A -> K)
    (seen : list K) (l : list A) (x : A) :
  x ∈ keep_first key seen l ->
  (key x ∉ seen)
  /\ exists i, list_find (fun y => key y = key x) l = Some (i, x).
Proof.
  revert seen. induction l as [|y l IH]; intros seen; simpl;
    [by intros ?%elem_of_nil |].
  case_bool_decide as Hy.
  - intros Hx. destruct (IH _ Hx) as [Hnot [i Hi]]. split; [done |].
    exists (S i). rewrite decide_False by (by intros Heq; rewrite Heq in Hy).
    by rewrite Hi.
  - intros [->|Hx]%elem_of_cons.
    + split; [done |]. exists 0%nat. by rewrite decide_True.
    + destruct (IH _ Hx) as [Hnot [i Hi]].
      split; [by intros ?; apply Hnot; right |].
      exists (S i).
      rewrite decide_False by (by intros Heq; apply Hnot; rewrite <- Heq; left).
      by rewrite Hi.
Qed.

(** What [deduplicate_metadata] writes loses no video and keeps no
    duplicate. Of the frame that pandas makes of the metadata file, the
    final file has the columns as its header, and its lines are the
    texts of rows of the frame, in their order; no identifier is in two
    of these rows; every identifier of the frame is in one; and the row
    kept for an identifier is the first row of the frame with it. The
    identifiers are the values of the cells, as pandas read them. *)
Theorem deduplicate_metadata_sound {V : Type} `{EqDecision V}
    (pd : library V) (file final : csv) (df : DataFrame V) (k : nat) :
  read_csv pd file = Some df ->
  column_position "Video ID" (columns df) = Some k ->
  YouTubeMetadataExtractor.deduplicate_metadata pd file = Done final ->
  let frame_rows : list (list V) := snd <$> rows df in
  exists kept : list (list V),
    header final = columns df
    /\ lines final = (fun row : list V => text_of pd <$> row) <$> kept
    /\ kept `sublist_of` frame_rows
    /\ NoDup (@cell V k <$> kept)
    /\ (forall video_id,
          video_id ∈ @cell V k <$> kept
          <-> video_id ∈ @cell V k <$> frame_rows)
    /\ (forall row, row ∈ kept ->
          exists i, list_find (fun other => cell k other = cell k row)
                      frame_rows = Some (i, row)).
Proof.
  intros Hread Hk. rewrite (deduplicate_metadata_rows pd file df k Hread Hk).
  intros [= <-] frame_rows. exists (keep_first (cell k) [] frame_rows).
  unfold frame_rows.
  cbn [header lines]. split; [done |].
  split.
  { rewrite <- (keep_first_fmap snd (cell k)).
    by rewrite <- list_fmap_compose. }
  split; [apply keep_first_sublist |].
  split; [apply keep_first_NoDup |].
  split.
  - intros video_id. rewrite keep_first_keys.
    split; [by intros [? _] | intros ?; split; [done | apply not_elem_of_nil]].
  - intros row Hrow. by apply keep_first_is_first in Hrow as [_ ?].
Qed.

Lemma deduplicate_metadata_sound_witness :
  let file := {| header := ["Title"; "Video ID"];
                 lines := [["a"; "v1"]; ["b"; "v2"]; ["c"; "v1"]] |} in
  let final := {| header := ["Title"; "Video ID"];
                  lines := [["a"; "v1"]; ["b"; "v2"]] |} in
  let df :=
    {| columns := ["Title"; "Video ID"];
       rows := [(0%nat, [Inference.Str "a"; Inference.Str "v1"]);
                (1%nat, [Inference.Str "b"; Inference.Str "v2"]);
                (2%nat, [Inference.Str "c"; Inference.Str "v1"])] |} in
  let frame_rows : list (list Inference.value) := snd <$> rows df in
  exists kept : list (list Inference.value),
    header final = columns df
    /\ lines final
       = (fun row : list Inference.value =>
            text_of Inference.pandas <$> row) <$> kept
    /\ kept `sublist_of` frame_rows
    /\ NoDup (@cell Inference.value 1 <$> kept)
    /\ (forall video_id,
          video_id ∈ @cell Inference.value 1 <$> kept
          <-> video_id ∈ @cell Inference.value 1 <$> frame_rows)
    /\ (forall row, row ∈ kept ->
          exists i, list_find (fun other => cell 1 other = cell 1 row)
                      frame_rows = Some (i, row)).
Proof.
  intros file final df.
  apply (deduplicate_metadata_sound Inference.pandas file final df 1);
    reflexivity.
Defined.

(** [deduplicate_dataframe] on a frame with the key column: the columns
    are kept, the rows are rows of the frame in their order, labelled
    from 0 on, no key is on two of them, and every key of the frame is on
    one. *)
Theorem deduplicate_dataframe_sound {V : Type} `{EqDecision V}
    (df : DataFrame V) (key_column : string) (k : nat) :
  column_position key_column (columns df) = Some k ->
  let once := Deduplication.deduplicate_dataframe df key_column in
  columns once = columns df
  /\ (snd <$> rows once) `sublist_of` (snd <$> rows df)
  /\ fst <$> rows once = seq 0 (length (rows once))
  /\ NoDup (cell k ∘ snd <$> rows once)
  /\ (forall key, key ∈ (cell k ∘ snd <$> rows once)
                  <-> key ∈ (cell k ∘ snd <$> rows df)).
Proof.
  intros Hk once. unfold once, Deduplication.deduplicate_dataframe,
    drop_duplicates. rewrite Hk. unfold reset_index. cbn [columns rows].
  set (kept := keep_first (fun r : nat * list V => cell k r.2) []
                 (rows df)).
  assert (Hlen : length (seq 0 (length kept)) = length (snd <$> kept))
    by by rewrite length_seq, length_fmap.
  rewrite snd_zip by lia. rewrite fst_zip by lia.
  rewrite length_zip_with, length_seq, length_fmap, Nat.min_id.
  split; [done |].
  split; [by apply fmap_sublist, keep_first_sublist |].
  split; [done |].
  assert (Hkeys : cell k ∘ snd <$> zip (seq 0 (length kept)) (snd <$> kept)
                  = (fun r : nat * list V => cell k r.2) <$> kept).
  { rewrite list_fmap_compose, snd_zip by lia.
    by rewrite <- list_fmap_compose. }
  rewrite Hkeys. split; [apply keep_first_NoDup |].
  intros key. unfold kept. rewrite keep_first_keys.
  split; [by intros [? _] | intros ?; split; [done | apply not_elem_of_nil]].
Qed.

Lemma deduplicate_dataframe_sound_witness :
  let df := {| columns := ["Video ID"];
               rows := [(7%nat, ["v1"]); (8%nat, ["v1"]);
                        (9%nat, ["v2"])] |} in
  let once := Deduplication.deduplicate_dataframe df "Video ID" in
  column_position "Video ID" (columns df) = Some 0%nat
  /\ columns once = columns df
  /\ (snd <$> rows once) `sublist_of` (snd <$> rows df)
  /\ fst <$> rows once = seq 0 (length (rows once))
  /\ NoDup (cell 0 ∘ snd <$> rows once)
  /\ (forall key, key ∈ (cell 0 ∘ snd <$> rows once)
                  <-> key ∈ (cell 0 ∘ snd <$> rows df)).
Proof.
  intros df once. split; [reflexivity |].
  apply (deduplicate_dataframe_sound df "Video ID" 0). reflexivity.
Defined.

End Stores.

(** ** The known identifiers of [vdata.py] *)

Section KnownIndex.

Import Pandas Vdata.

Lemma video_ids_of_rows_no_exit (fieldnames : list string)
    (rows_ : list (list string)) :
  video_ids_of_rows fieldnames rows_ <> Exit.
Proof.
  induction rows_ as [|row rows_ IH]; cbn [video_ids_of_rows]; [done |].
  destruct row as [|c row]; [done |].
  destruct (dict_row fieldnames (c :: row) !! "Video ID") as [v|];
    [| done].
  destruct (video_ids_of_rows fieldnames rows_); [| done | done].
  by destruct v.
Qed.

(** The fields set to [None] hold no cell. *)
Lemma restval_lookup (fields : list string) :
  forall (d : gmap string (option string)) (key : string) (v : string),
    foldl (fun d key => <[key := None]> d) d fields !! key = Some (Some v) ->
    d !! key = Some (Some v).
Proof.
  induction fields as [|f fields IH]; intros d key v; cbn [foldl]; [done |].
  intros Hv%IH. destruct (decide (f = key)) as [->|Hne].
  - by rewrite lookup_insert_eq in Hv.
  - by rewrite lookup_insert_ne in Hv.
Qed.

Lemma dict_row_blank (fieldnames : list string) (key v : string) :
  dict_row fieldnames [] !! key <> Some (Some v).
Proof.
  unfold dict_row. intros Hv%restval_lookup.
  by destruct fieldnames.
Qed.

Lemma video_ids_of_rows_spec (fieldnames : list string)
    (rows_ : list (list string)) (ids : list string) :
  video_ids_of_rows fieldnames rows_ = Done ids ->
  forall v, v ∈ ids
            <-> exists row, row ∈ rows_
                            /\ dict_row fieldnames row !! "Video ID"
                               = Some (Some v).
Proof.
  revert ids. induction rows_ as [|row rows_ IH]; intros ids;
    cbn [video_ids_of_rows].
  - intros [= <-] v. split; [by intros ?%elem_of_nil |].
    by intros (row & ?%elem_of_nil & _).
  - destruct row as [|c row].
    { intros Hids v. rewrite (IH _ Hids v). split.
      - intros (row' & Hin & Hv). exists row'. split; [by right | done].
      - intros (row' & [->|Hin]%elem_of_cons & Hv);
          [by apply dict_row_blank in Hv | by exists row']. }
    destruct (dict_row fieldnames (c :: row) !! "Video ID") as [v0|] eqn:Hrow;
      [| done].
    destruct (video_ids_of_rows fieldnames rows_) as [ids'| |];
      [| done | done].
    specialize (IH ids' eq_refl).
    destruct v0 as [v0|]; intros [= <-] v.
    + rewrite elem_of_cons, IH. split.
      * intros [->|(row' & Hin & Hv)];
          [exists (c :: row); split; [by left | done]
          | exists row'; split; [by right | done]].
      * intros (row' & [->|Hin]%elem_of_cons & Hv);
          [left; congruence | right; by exists row'].
    + rewrite IH. split.
      * intros (row' & Hin & Hv). exists row'. split; [by right | done].
      * intros (row' & [->|Hin]%elem_of_cons & Hv);
          [congruence | by exists row'].
Qed.

Lemma read_existing_ids_spec (files : list (string * csv)) :
  forall (existing_ids index : gset string),
    read_existing_ids files existing_ids = Done index ->
    forall v, v ∈ index
              <-> v ∈ existing_ids
                  \/ exists file content row,
                       (file, content) ∈ files
                       /\ Py.endswith ".csv" file = true
                       /\ row ∈ lines content
                       /\ dict_row (header content) row !! "Video ID"
                          = Some (Some v).
Proof.
  induction files as [|[file content] files IH]; intros existing_ids index;
    cbn [read_existing_ids].
  - intros [= <-] v. split; [by left |].
    by intros [?|(? & ? & ? & ?%elem_of_nil & _)].
  - destruct (Py.endswith ".csv" file) eqn:Hcsv.
    + destruct (video_ids_of_rows (header content) (lines content))
        as [ids| |] eqn:Hids; [| done | done].
      intros Hindex v. rewrite (IH _ _ Hindex v).
      rewrite elem_of_union, elem_of_list_to_set,
        (video_ids_of_rows_spec _ _ _ Hids). split.
      * intros [[?|(row & Hrow & Hv)]|(f & c & row & Hin & ? & ? & ?)].
        -- by left.
        -- right. exists file, content, row.
           split; [by left | done].
        -- right. exists f, c, row. split; [by right | done].
      * intros [?|(f & c & row & [[= -> ->]|Hin]%elem_of_cons & ? & ? & ?)].
        -- by left; left.
        -- left; right. by exists row.
        -- right. by exists f, c, row.
    + intros Hindex v. rewrite (IH _ _ Hindex v). split.
      * intros [?|(f & c & row & Hin & ? & ? & ?)]; [by left |].
        right. exists f, c, row. split; [by right | done].
      * intros [?|(f & c & row & [[= -> ->]|Hin]%elem_of_cons & Hf & ? & ?)];
          [by left | congruence | right; by exists f, c, row].
Qed.

Lemma read_existing_ids_swap (x y : string * csv)
    (files : list (string * csv)) (existing_ids : gset string) :
  read_existing_ids (x :: y :: files) existing_ids
  = read_existing_ids (y :: x :: files) existing_ids.
Proof.
  destruct x as [fx cx], y as [fy cy]. cbn [read_existing_ids].
  pose proof (video_ids_of_rows_no_exit (header cx) (lines cx)).
  pose proof (video_ids_of_rows_no_exit (header cy) (lines cy)).
  destruct (Py.endswith ".csv" fx), (Py.endswith ".csv" fy); try done;
    destruct (video_ids_of_rows (header cx) (lines cx)) as [ix| |];
    destruct (video_ids_of_rows (header cy) (lines cy)) as [iy| |];
    try done.
  f_equal. rewrite <- !(assoc_L (∪)). f_equal. apply (comm_L (∪)).
Qed.

(** What [check_existing_video_ids] returns is the list of the
    candidates without those that a row of a [.csv] file of the directory
    has as its [Video ID]: the others stay, in their order and as often
    as they are listed. *)
Theorem check_existing_video_ids_keeps_unknown
    (files : list (string * csv)) (video_ids kept : list string) :
  check_existing_video_ids (Some files) video_ids = Done kept ->
  exists index : gset string,
    (forall v,
       v ∈ index
       <-> exists file content row,
             (file, content) ∈ files
             /\ Py.endswith ".csv" file = true
             /\ row ∈ lines content
             /\ dict_row (header content) row !! "Video ID"
                = Some (Some v))
    /\ kept = filter (fun v => v ∉ index) video_ids.
Proof.
  unfold check_existing_video_ids, existing_ids_of.
  destruct (read_existing_ids files ∅) as [index| |] eqn:Hindex;
    [| done | done].
  intros [= <-]. exists index. split; [| done].
  intros v. rewrite (read_existing_ids_spec _ _ _ Hindex v). split.
  - by intros [?%elem_of_empty|?].
  - by right.
Qed.

Lemma check_existing_video_ids_keeps_unknown_witness :
  let files :=
    [("metadata_1.csv",
      {| header := ["Title"; "Video ID"]; lines := [["t"; "b"]] |});
     ("notes.txt", {| header := ["Video ID"]; lines := [["a"]] |})] in
  exists index : gset string,
    (forall v,
       v ∈ index
       <-> exists file content row,
             (file, content) ∈ files
             /\ Py.endswith ".csv" file = true
             /\ row ∈ lines content
             /\ dict_row (header content) row !! "Video ID"
                = Some (Some v))
    /\ ["a"; "c"; "a"] = filter (fun v => v ∉ index) ["a"; "b"; "c"; "a"].
Proof.
  intros files.
  apply (check_existing_video_ids_keeps_unknown files ["a"; "b"; "c"; "a"]).
  vm_compute. reflexivity.
Defined.

(** The order in which [os.listdir] gives the files of the directory
    does not change what [check_existing_video_ids] returns or
    raises. *)
Theorem check_existing_video_ids_any_order
    (files files' : list (string * csv)) (video_ids : list string) :
  files ≡ₚ files' ->
  check_existing_video_ids (Some files) video_ids
  = check_existing_video_ids (Some files') video_ids.
Proof.
  intros Hperm.
  assert (Hread : forall existing_ids,
             read_existing_ids files existing_ids
             = read_existing_ids files' existing_ids).
  { induction Hperm as [|[file content] l l' _ IH|x y l|l l' l'' _ IH1 _ IH2];
      intros existing_ids.
    - done.
    - cbn [read_existing_ids]. destruct (Py.endswith ".csv" file); [| done].
      by destruct (video_ids_of_rows (header content) (lines content)).
    - apply read_existing_ids_swap.
    - by rewrite IH1. }
  unfold check_existing_video_ids, existing_ids_of. by rewrite Hread.
Qed.

Lemma check_existing_video_ids_any_order_witness :
  let one := ("a.csv", {| header := ["Video ID"]; lines := [["a"]] |}) in
  let two := ("b.csv", {| header := ["Title"]; lines := [["t"]] |}) in
  check_existing_video_ids (Some [one; two]) ["a"; "b"]
  = check_existing_video_ids (Some [two; one]) ["a"; "b"].
Proof.
  intros one two. apply check_existing_video_ids_any_order.
  apply perm_swap.
Defined.

End KnownIndex.

(** ** The listing of [vdata.py] *)

Section Listing.

Import Api Vdata Reference.

Lemma list_pages_raises (execute : nat -> option string -> option page)
    (pages : option string -> page) (k : nat) :
  forall (fuel calls_ : nat) (token token' : option string)
    (ps : list page) (video_ids : list string),
    first_pages pages k token = Some (ps, token') ->
    (forall j t, (j < k)%nat -> execute (calls_ + j)%nat t = Some (pages t)) ->
    execute (calls_ + k)%nat token' = None ->
    (k < fuel)%nat ->
    VdataService.list_pages fuel execute calls_ token video_ids
    = Some (Raise, S (calls_ + k)).
Proof.
  induction k as [|k IH];
    intros fuel calls_ token token' ps video_ids Hfirst Hok Herr Hfuel;
    (destruct fuel as [|fuel]; [lia |]);
    cbn [VdataService.list_pages]; cbn [first_pages] in Hfirst.
  - injection Hfirst as <- <-. rewrite Nat.add_0_r in Herr.
    by rewrite Herr, Nat.add_0_r.
  - pose proof (Hok 0%nat token ltac:(lia)) as Hpage.
    rewrite Nat.add_0_r in Hpage. rewrite Hpage.
    destruct (YouTubeMetadataExtractor.falsy (nextPageToken (pages token)));
      [done |].
    destruct (first_pages pages k (nextPageToken (pages token)))
      as [[ps' token'']|] eqn:Hrest; [| done].
    injection Hfirst as <- <-.
    rewrite (IH fuel (S calls_) _ token'' ps' _ Hrest).
    + do 3 f_equal. lia.
    + intros j t Hj. rewrite Nat.add_succ_comm. apply Hok. lia.
    + by rewrite Nat.add_succ_comm.
    + lia.
Qed.




(** When a page of the playlist raises, [get_playlist_videos] of
    [vdata.py] returns [None]: the items of the pages before are lost,
    the cursor of the pool moves to the next credential, and
    [process_url] on the link of the playlist raises without sending a
    detail request. *)
Theorem get_playlist_videos_failure_loses_pages
    (execute : nat -> option string -> option page)
    (pages : option string -> page) (k fuel calls_ : nat) (g : pool)
    (ps : list page) (token' : option string) :
  first_pages pages k None = Some (ps, token') ->
  (forall j t, (j < k)%nat -> execute (calls_ + j)%nat t = Some (pages t)) ->
  execute (calls_ + k)%nat token' = None ->
  (k < fuel)%nat ->
  API_KEYS g <> [] ->
  let answer := VdataService.get_playlist_videos fuel execute calls_ g in
  answer
  = Some (Done (None,
                {| API_KEYS := API_KEYS g;
                   current_key_index :=
                     ((current_key_index g + 1)
                      mod length (API_KEYS g))%nat |}),
          S (calls_ + k))
  /\ forall (isodate_seconds : string -> option Z)
       (videos_list : nat -> list string -> option (list video_item))
       (get_channel_videos : string -> option (list string))
       (metadata_dir : option (list (string * Pandas.csv))) (st : run)
       (url identifier : string),
       extract_identifier url = (Some identifier, Some "playlist") ->
       process_url isodate_seconds videos_list
         (fun _ => VdataService.returned answer) get_channel_videos
         metadata_dir st url
       = (Raise, st).
Proof.
  intros Hfirst Hok Herr Hfuel Hkeys answer.
  assert (Hanswer :
            answer
            = Some (Done (None,
                          {| API_KEYS := API_KEYS g;
                             current_key_index :=
                               ((current_key_index g + 1)
                                mod length (API_KEYS g))%nat |}),
                    S (calls_ + k))).
  { unfold answer, VdataService.get_playlist_videos.
    rewrite (list_pages_raises execute pages k fuel calls_ None token' ps []
               Hfirst Hok Herr Hfuel).
    unfold VdataService.handle_errors, switch_api_key.
    destruct (API_KEYS g) as [|key keys]; [done |]. done. }
  split; [done |].
  intros isodate_seconds videos_list get_channel_videos metadata_dir st url
    identifier Hurl.
  unfold process_url. rewrite Hurl, Hanswer. done.
Qed.

Lemma get_playlist_videos_failure_loses_pages_witness :
  let execute := fun (n : nat) (token : option string) =>
    if (n =? 2)%nat then None else Some (Playlist.example_pages token) in
  let answer :=
    VdataService.get_playlist_videos 5 execute 0
      (Vdata.init [Some "k1"; Some "k2"]) in
  answer
  = Some (Done (None,
                {| API_KEYS := API_KEYS (Vdata.init [Some "k1"; Some "k2"]);
                   current_key_index :=
                     ((current_key_index (Vdata.init [Some "k1"; Some "k2"])
                       + 1)
                      mod length
                            (API_KEYS (Vdata.init [Some "k1"; Some "k2"])))%nat
                |}),
          S (0 + 2))
  /\ forall (isodate_seconds : string -> option Z)
       (videos_list : nat -> list string -> option (list video_item))
       (get_channel_videos : string -> option (list string))
       (metadata_dir : option (list (string * Pandas.csv))) (st : run)
       (url identifier : string),
       extract_identifier url = (Some identifier, Some "playlist") ->
       process_url isodate_seconds videos_list
         (fun _ => VdataService.returned answer) get_channel_videos
         metadata_dir st url
       = (Raise, st).
Proof.
  intros execute answer.
  apply (get_playlist_videos_failure_loses_pages execute
           Playlist.example_pages 2 5 0 (Vdata.init [Some "k1"; Some "k2"])
           [Playlist.example_pages None; Playlist.example_pages (Some "t1")]
           (Some "t2")).
  - reflexivity.
  - intros [|[|j]] t Hj; [reflexivity | reflexivity | lia].
  - reflexivity.
  - lia.
  - discriminate.
Defined.

End Listing.

(** ** The limit of [int] *)

Section Conversion.

Import Py Iso8601 YouTubeMetadataExtractor.

(** A duration whose hours are written with more than 4300 digits makes
    [parse_duration] raise, whatever follows the hours: [int] refuses the
    run, and nothing catches the error. *)
Theorem parse_duration_raises_beyond_limit (ds rest : string) :
  is_number ds = true ->
  (max_str_digits <? String.length ds)%nat = true ->
  parse_duration (Some ("PT" +:+ ds +:+ String "H" rest)) = Raise.
Proof.
  intros Hds Hlong. unfold parse_duration. rewrite !append_cons, append_nil.
  unfold match_duration. cbn [strip_prefix Ascii.eqb Bool.eqb].
  rewrite (component_take "H" ds rest Hds) by done.
  destruct (component "M" rest) as [m s2].
  destruct (component "S" s2) as [s s3].
  destruct ds as [|d ds]; [done |]. cbn [digit_values group_value].
  change (digit_value d :: digit_values ds)
    with (digit_values (String d ds)).
  unfold Py.int. by rewrite length_digit_values, Hlong.
Qed.

Lemma parse_duration_raises_beyond_limit_witness :
  parse_duration
    (Some ("PT" +:+ String.string_of_list_ascii (replicate 4301 "7"%char)
           +:+ String "H" "30M"))
  = Raise.
Proof.
  apply parse_duration_raises_beyond_limit; by vm_compute.
Defined.

End Conversion.
